(** * FreeTezz escrow backend: the job lifecycle of [server.js]

    A shallow embedding of the Express handlers of [server.js] (the job
    store, the accept / submit / dispute actions and the two prepare /
    confirm escrow flows) together with the properties the specification
    states about them.

    Conventions of the embedding.
    - A value taken from a parsed JSON request body is a [jsval]; an absent
      field (or an absent body, [req.body || {}]) reads as [VUndefined].
    - A JavaScript number is an IEEE-754 binary64 value, [spec_float] at
      precision 53 and maximal exponent 1024.
    - The [jobs] object is a finite map from job identifiers to job records;
      [jobs[id]] is a lookup among the identifiers it owns. A request whose
      identifier is a property name of [Object.prototype] ([constructor],
      [toString], [__proto__], ...) is not covered: [inherited] lists these
      identifiers, and the statements about what a request is answered, or
      about identifiers that name no job, are made of the others.
    - What a handler takes from its surroundings (the random identifier, the
      readings of [now()], whether [fs.writeFileSync] succeeds) is passed in
      an [env] record; [process.env.ESCROW_ADDRESS] is the [config]. *)

From Stdlib Require Import ZArith QArith Qround String Ascii List DecimalString Lia.
From Corelib Require Import SpecFloat.
From stdpp Require Import gmap strings list fin_maps.
Import ListNotations.
Open Scope Z_scope.

(** ** JavaScript numbers *)

Module Num.

Definition number := spec_float.

Definition prec : Z := 53.
Definition emax : Z := 1024.

(** The number denoted by an integer literal. *)
Definition of_Z (z : Z) : number := binary_normalize prec emax z 0 false.

Definition zero : number := S754_zero false.

(** [x * y] *)
Definition mul (x y : number) : number := SFmul prec emax x y.

(** [x === y] on numbers: NaN differs from itself, [+0] equals [-0]. *)
Definition eqb (x y : number) : bool := SFeqb x y.

(** ToBoolean on numbers: [0], [-0] and [NaN] are falsy. *)
Definition truthy (x : number) : bool :=
  match x with
  | S754_zero _ | S754_nan => false
  | _ => true
  end.

(** [Math.round(x)]: the integer closest to [x], ties towards +infinity;
    not-finite and integral arguments are returned as they are, and a
    result of zero keeps the sign of [x]. *)
Definition Math_round (x : number) : number :=
  match x with
  | S754_finite s m e =>
      if 0 <=? e then x
      else
        let den := 2 ^ (- e) in
        let num := if s then Z.neg m else Z.pos m in
        let r := (2 * num + den) / (2 * den) in
        if r =? 0 then S754_zero s else of_Z r
  | _ => x
  end.

(** The double that an integer in [1, 2^53) is: the mantissa [p] shifted to
    53 bits. *)
Definition shl (p : positive) (d : Z) : positive :=
  match d with
  | Z.pos d' => Pos.iter xO p d'
  | _ => p
  end.

Definition exact (p : positive) : number :=
  S754_finite false (shl p (53 - Z.pos (digits2_pos p))) (Z.pos (digits2_pos p) - 53).

(** *** Number::toString, radix 10 *)

Definition decimal (z : Z) : string := NilZero.string_of_uint (N.to_uint (Z.to_N z)).

Fixpoint zeros (n : nat) : string :=
  match n with
  | O => EmptyString
  | S n' => String "0" (zeros n')
  end.

Definition pow10 (p : Z) : Q := Qpower (10 # 1) p.

Definition finite_value (m : positive) (e : Z) : Q :=
  (inject_Z (Z.pos m) * Qpower (2 # 1) e)%Q.

Definition Qltb (a b : Q) : bool := negb (Qle_bool b a).

(** The [n] with [10^(n-1) <= v < 10^n], for [v > 0]. *)
Fixpoint exponent_up (fuel : nat) (v : Q) (n : Z) : Z :=
  match fuel with
  | O => n
  | S f => if Qle_bool (pow10 n) v then exponent_up f v (n + 1) else n
  end.

Fixpoint exponent_down (fuel : nat) (v : Q) (n : Z) : Z :=
  match fuel with
  | O => n
  | S f => if Qltb v (pow10 (n - 1)) then exponent_down f v (n - 1) else n
  end.

Definition decimal_exponent (v : Q) : Z :=
  if Qle_bool 1 v then exponent_up 400 v 1 else exponent_down 400 v 0.

(** The reals that round to the double [m * 2^e]: half-way to each
    neighbour, the end points included when [m] is even. *)
Definition rounds_to (m : positive) (e : Z) (c : Q) : bool :=
  let v := finite_value m e in
  let up := Qpower (2 # 1) (e - 1) in
  let down := if (Z.pos m =? 2 ^ 52) && (-1074 <? e)
              then Qpower (2 # 1) (e - 2) else up in
  if Z.even (Z.pos m)
  then Qle_bool (v - down) c && Qle_bool c (v + up)
  else Qltb (v - down) c && Qltb c (v + up).

(** A [k]-digit [s] with [s * 10^(n-k)] rounding to the double: the one
    closest to it when there are two, and the even one when the two are as
    close. *)
Definition candidate (m : positive) (e n k : Z) : option Z :=
  let v := finite_value m e in
  let p := n - k in
  let s := Qfloor (v * pow10 (- p)) in
  let c1 := (inject_Z s * pow10 p)%Q in
  let c2 := (inject_Z (s + 1) * pow10 p)%Q in
  match rounds_to m e c1, rounds_to m e c2 with
  | true, true =>
      Some (match Qcompare (v - c1) (c2 - v) with
            | Lt => s
            | Gt => s + 1
            | Eq => if Z.even s then s else s + 1
            end)
  | true, false => Some s
  | false, true => Some (s + 1)
  | false, false => None
  end.

(** The least [k], from [k] upwards, with such an [s]. *)
Fixpoint shortest (fuel : nat) (m : positive) (e n k : Z) : Z * Z :=
  match candidate m e n k, fuel with
  | Some s, _ => (s, k)
  | None, O => (Qfloor (finite_value m e * pow10 (k - n)), k)
  | None, S f => shortest f m e n (k + 1)
  end.

Definition positive_toString (m : positive) (e : Z) : string :=
  let n0 := decimal_exponent (finite_value m e) in
  let '(s0, k0) := shortest 16 m e n0 1 in
  let '(s, k, n) := if s0 =? 10 ^ k0 then (1, 1, n0 + 1) else (s0, k0, n0) in
  let digits := decimal s in
  if (k <=? n) && (n <=? 21) then
    digits +:+ zeros (Z.to_nat (n - k))
  else if (0 <? n) && (n <=? 21) then
    substring 0 (Z.to_nat n) digits +:+ "." +:+
    substring (Z.to_nat n) (Z.to_nat (k - n)) digits
  else if (-6 <? n) && (n <=? 0) then
    "0." +:+ zeros (Z.to_nat (- n)) +:+ digits
  else
    let ex := (if 0 <=? n - 1 then "+" else "-") +:+ decimal (Z.abs (n - 1)) in
    if k =? 1 then digits +:+ "e" +:+ ex
    else substring 0 1 digits +:+ "." +:+
         substring 1 (Z.to_nat (k - 1)) digits +:+ "e" +:+ ex.

(** [String(x)] *)
Definition toString (x : number) : string :=
  match x with
  | S754_nan => "NaN"
  | S754_zero _ => "0"
  | S754_infinity false => "Infinity"
  | S754_infinity true => "-Infinity"
  | S754_finite false m e => positive_toString m e
  | S754_finite true m e => "-" +:+ positive_toString m e
  end.

End Num.

Abbreviation number := Num.number.

(** ** Values of a parsed JSON body *)

Inductive jsval :=
| VUndefined
| VNull
| VBool (b : bool)
| VNum (x : number)
| VStr (s : string)
| VObj (text : string).  (* an object or an array, given by its JSON text *)

(** ToBoolean, as used by [!v] and [v || w]. *)
Definition truthy (v : jsval) : bool :=
  match v with
  | VUndefined | VNull => false
  | VBool b => b
  | VNum x => Num.truthy x
  | VStr s => negb (String.eqb s "")
  | VObj _ => true
  end.

(** [a === b] between a stored value and a value from the current request.
    Objects are compared by reference, and an object parsed from the current
    body is never the one stored by an earlier request. *)
Definition strict_eq (a b : jsval) : bool :=
  match a, b with
  | VUndefined, VUndefined => true
  | VNull, VNull => true
  | VBool x, VBool y => Bool.eqb x y
  | VNum x, VNum y => Num.eqb x y
  | VStr x, VStr y => String.eqb x y
  | _, _ => false
  end.

(** [a || b] *)
Definition or_else (a b : jsval) : jsval := if truthy a then a else b.

(** ** The job record *)

Inductive job_status := OPEN | ACCEPTED | FUNDED | SUBMITTED | DISPUTED | RELEASED.

Definition status_name (s : job_status) : string :=
  match s with
  | OPEN => "OPEN"
  | ACCEPTED => "ACCEPTED"
  | FUNDED => "FUNDED"
  | SUBMITTED => "SUBMITTED"
  | DISPUTED => "DISPUTED"
  | RELEASED => "RELEASED"
  end.

Definition status_eqb (a b : job_status) : bool :=
  match a, b with
  | OPEN, OPEN | ACCEPTED, ACCEPTED | FUNDED, FUNDED
  | SUBMITTED, SUBMITTED | DISPUTED, DISPUTED | RELEASED, RELEASED => true
  | _, _ => false
  end.

Record escrow_record := {
  deposited : number;
  opHashes : list jsval
}.

Record submission_record := { sub_workUrl : jsval; sub_at : string }.
Record dispute_record := { dis_by : jsval; dis_reason : jsval; dis_at : string }.
Record release_record := { rel_opHash : jsval; rel_at : string }.

Record job := {
  id : string;
  title : jsval;
  description : jsval;
  amountMutez : number;
  currency : string;
  clientAddress : jsval;
  freelancerAddress : jsval;
  status : job_status;
  createdAt : string;
  updatedAt : string;
  escrow : escrow_record;
  submission : option submission_record;
  dispute : option dispute_record;
  release : option release_record
}.

(** ** The server *)

(** [jobs] is the in-memory store. [db_file] stands for [/tmp/jobs.json]:
    [Some m] when its text is [JSON.stringify(m, null, 2)], [None] when
    there is no file or its text does not parse. *)
Record server := {
  jobs : gmap string job;
  db_file : option (gmap string job)
}.

Record config := {
  ESCROW_ADDRESS : option string   (* process.env.ESCROW_ADDRESS *)
}.

(** What one request takes from outside the handler. *)
Record env := {
  random_id : string;   (* crypto.randomBytes(4).toString('hex') *)
  now1 : string;        (* the first call of now() *)
  now2 : string;        (* the second call of now() *)
  write_ok : bool;      (* fs.writeFileSync does not throw *)
  file_after_failed_write : option (gmap string job)
                        (* what a write that throws leaves of the file *)
}.

(** The store read back from the file, for a store that [JSON.parse] gives
    back as it was written (JSON has no [Infinity] and no sign for [0]). *)
Definition loadDB (file : option (gmap string job)) : gmap string job :=
  match file with
  | Some stored => stored
  | None => ∅
  end.

(** The error of a write that throws is caught and logged; what such a
    write leaves of the file is not the handler's to say. *)
Definition saveDB (e : env) (s : server) : server :=
  {| jobs := jobs s;
     db_file := if write_ok e then Some (jobs s) else file_after_failed_write e |}.

(** [let jobs = loadDB()] at start-up. *)
Definition boot (file : option (gmap string job)) : server :=
  {| jobs := loadDB file; db_file := file |}.

(** [jobs[k] = j] *)
Definition put_job (k : string) (j : job) (s : server) : server :=
  {| jobs := <[k := j]> (jobs s); db_file := db_file s |}.

Definition toMutez (xtz : number) : number :=
  Num.Math_round (Num.mul (if Num.truthy xtz then xtz else Num.zero) (Num.of_Z 1000000)).

(** *** Responses *)

Record operation := {
  kind : string;
  destination : jsval;
  amount : string
}.

Inductive payload :=
| CreatedBody (i : string) (j : job)               (* { id, job } *)
| JobBody (j : job)                                (* job *)
| OkJobBody (j : job)                              (* { ok: true, job } *)
| OperationDetailsBody (ops : list operation).     (* { operationDetails } *)

Inductive response :=
| Json (p : payload)                     (* res.json(p), status 200 *)
| Fail (code : Z) (message : string).    (* res.status(code).json({ message }) *)

(** *** Requests *)

Inductive request :=
| PostJob (title amountMutez clientAddress description : jsval)
| GetJob (i : string)
| PostAccept (i : string) (freelancerPkh : jsval)
| PostSubmit (i : string) (freelancerPkh workUrl : jsval)
| PostDispute (i : string) (pkh reason : jsval)
| PostDepositPrepare (i : string) (fromPkh amountTez : jsval)
| PostDepositConfirm (i : string) (fromPkh opHash : jsval)
| PostReleasePrepare (i : string) (clientPkh : jsval)
| PostReleaseConfirm (i : string) (clientPkh opHash : jsval).

(** *** Field updates of a job, as the handlers perform them *)

Definition accepted (j : job) (freelancerPkh : jsval) (t : string) : job :=
  {| id := id j; title := title j; description := description j;
     amountMutez := amountMutez j; currency := currency j;
     clientAddress := clientAddress j;
     freelancerAddress := freelancerPkh;
     status := ACCEPTED;
     createdAt := createdAt j; updatedAt := t;
     escrow := escrow j; submission := submission j;
     dispute := dispute j; release := release j |}.

Definition submitted (j : job) (workUrl : jsval) (t_at t : string) : job :=
  {| id := id j; title := title j; description := description j;
     amountMutez := amountMutez j; currency := currency j;
     clientAddress := clientAddress j;
     freelancerAddress := freelancerAddress j;
     status := SUBMITTED;
     createdAt := createdAt j; updatedAt := t;
     escrow := escrow j;
     submission := Some {| sub_workUrl := workUrl; sub_at := t_at |};
     dispute := dispute j; release := release j |}.

Definition disputed (j : job) (pkh reason : jsval) (t_at t : string) : job :=
  {| id := id j; title := title j; description := description j;
     amountMutez := amountMutez j; currency := currency j;
     clientAddress := clientAddress j;
     freelancerAddress := freelancerAddress j;
     status := DISPUTED;
     createdAt := createdAt j; updatedAt := t;
     escrow := escrow j; submission := submission j;
     dispute := Some {| dis_by := pkh; dis_reason := reason; dis_at := t_at |};
     release := release j |}.

Definition funded (j : job) (opHash : jsval) (t : string) : job :=
  {| id := id j; title := title j; description := description j;
     amountMutez := amountMutez j; currency := currency j;
     clientAddress := clientAddress j;
     freelancerAddress := freelancerAddress j;
     status := FUNDED;
     createdAt := createdAt j; updatedAt := t;
     escrow := {| deposited := amountMutez j;
                  opHashes := opHashes (escrow j) ++ [opHash] |};
     submission := submission j;
     dispute := dispute j; release := release j |}.

Definition released (j : job) (opHash : jsval) (t t_at : string) : job :=
  {| id := id j; title := title j; description := description j;
     amountMutez := amountMutez j; currency := currency j;
     clientAddress := clientAddress j;
     freelancerAddress := freelancerAddress j;
     status := RELEASED;
     createdAt := createdAt j; updatedAt := t;
     escrow := escrow j; submission := submission j;
     dispute := dispute j;
     release := Some {| rel_opHash := opHash; rel_at := t_at |} |}.

(** *** The handlers *)

(** The record built by POST /api/jobs. *)
Definition new_job (e : env) (title : jsval) (amount_number : number)
    (clientAddress description : jsval) : job :=
  {| id := random_id e; title := title;
     description := or_else description (VStr "");
     amountMutez := amount_number; currency := "XTZ";
     clientAddress := clientAddress;
     freelancerAddress := VNull;
     status := OPEN;
     createdAt := now1 e; updatedAt := now2 e;
     escrow := {| deposited := Num.of_Z 0; opHashes := [] |};
     submission := None; dispute := None; release := None |}.

(** POST /api/jobs *)
Definition post_job (e : env) (title amountMutez clientAddress description : jsval)
    (s : server) : server * response :=
  match amountMutez with
  | VNum amount_number =>
      if negb (truthy title) || negb (truthy clientAddress) then
        (s, Fail 400 "title, amountMutez, clientAddress are required")
      else
        let i := random_id e in
        let j := new_job e title amount_number clientAddress description in
        (saveDB e (put_job i j s), Json (CreatedBody i j))
  | _ => (s, Fail 400 "title, amountMutez, clientAddress are required")
  end.

(** GET /api/jobs/:id *)
Definition get_job (i : string) (s : server) : server * response :=
  match jobs s !! i with
  | None => (s, Fail 404 "Job not found")
  | Some j => (s, Json (JobBody j))
  end.

(** POST /api/jobs/:id/accept *)
Definition post_accept (e : env) (i : string) (freelancerPkh : jsval)
    (s : server) : server * response :=
  match jobs s !! i with
  | None => (s, Fail 404 "Job not found")
  | Some j =>
      if negb (truthy freelancerPkh) then
        (s, Fail 400 "freelancerPkh is required")
      else if negb (status_eqb (status j) OPEN) then
        (s, Fail 400 ("Cannot accept job in status " +:+ status_name (status j)))
      else
        let j' := accepted j freelancerPkh (now1 e) in
        (saveDB e (put_job i j' s), Json (OkJobBody j'))
  end.

(** POST /api/jobs/:id/submit *)
Definition post_submit (e : env) (i : string) (freelancerPkh workUrl : jsval)
    (s : server) : server * response :=
  match jobs s !! i with
  | None => (s, Fail 404 "Job not found")
  | Some j =>
      if negb (truthy freelancerPkh) || negb (truthy workUrl) then
        (s, Fail 400 "freelancerPkh and workUrl are required")
      else if negb (strict_eq (freelancerAddress j) freelancerPkh) then
        (s, Fail 403 "Only assigned freelancer can submit")
      else if negb (status_eqb (status j) ACCEPTED || status_eqb (status j) FUNDED) then
        (s, Fail 400 ("Cannot submit in status " +:+ status_name (status j)))
      else
        let j' := submitted j workUrl (now1 e) (now2 e) in
        (saveDB e (put_job i j' s), Json (OkJobBody j'))
  end.

(** POST /api/jobs/:id/dispute *)
Definition post_dispute (e : env) (i : string) (pkh reason : jsval)
    (s : server) : server * response :=
  match jobs s !! i with
  | None => (s, Fail 404 "Job not found")
  | Some j =>
      if negb (truthy pkh) || negb (truthy reason) then
        (s, Fail 400 "pkh and reason are required")
      else
        let j' := disputed j pkh reason (now1 e) (now2 e) in
        (saveDB e (put_job i j' s), Json (OkJobBody j'))
  end.

(** POST /api/jobs/:id/deposit/prepare *)
Definition post_deposit_prepare (c : config) (i : string) (fromPkh amountTez : jsval)
    (s : server) : server * response :=
  match jobs s !! i with
  | None => (s, Fail 404 "Job not found")
  | Some j =>
      match amountTez with
      | VNum amountTez_number =>
          if negb (truthy fromPkh) then
            (s, Fail 400 "fromPkh and amountTez are required")
          else if negb (strict_eq (clientAddress j) fromPkh) then
            (s, Fail 403 "Only client can deposit")
          else
            let amountMutez := toMutez amountTez_number in
            match ESCROW_ADDRESS c with
            | Some address =>
                if negb (String.eqb address "") then
                  (s, Json (OperationDetailsBody
                              [ {| kind := "transaction";
                                   destination := VStr address;
                                   amount := Num.toString amountMutez |} ]))
                else
                  (s, Fail 400 "ESCROW_ADDRESS not configured on server (.env)")
            | None =>
                (s, Fail 400 "ESCROW_ADDRESS not configured on server (.env)")
            end
      | _ => (s, Fail 400 "fromPkh and amountTez are required")
      end
  end.

(** POST /api/jobs/:id/deposit/confirm *)
Definition post_deposit_confirm (e : env) (i : string) (fromPkh opHash : jsval)
    (s : server) : server * response :=
  match jobs s !! i with
  | None => (s, Fail 404 "Job not found")
  | Some j =>
      if negb (truthy fromPkh) || negb (truthy opHash) then
        (s, Fail 400 "fromPkh and opHash are required")
      else if negb (strict_eq (clientAddress j) fromPkh) then
        (s, Fail 403 "Only client can confirm")
      else
        let j' := funded j opHash (now1 e) in
        (saveDB e (put_job i j' s), Json (OkJobBody j'))
  end.

(** POST /api/jobs/:id/release/prepare *)
Definition post_release_prepare (i : string) (clientPkh : jsval)
    (s : server) : server * response :=
  match jobs s !! i with
  | None => (s, Fail 404 "Job not found")
  | Some j =>
      if negb (truthy clientPkh) then
        (s, Fail 400 "clientPkh is required")
      else if negb (strict_eq (clientAddress j) clientPkh) then
        (s, Fail 403 "Only client can release")
      else if negb (truthy (freelancerAddress j)) then
        (s, Fail 400 "No freelancer assigned")
      else if negb (status_eqb (status j) SUBMITTED) && negb (status_eqb (status j) FUNDED) then
        (s, Fail 400 ("Cannot release in status " +:+ status_name (status j)))
      else
        (s, Json (OperationDetailsBody
                    [ {| kind := "transaction";
                         destination := freelancerAddress j;
                         amount := Num.toString (amountMutez j) |} ]))
  end.

(** POST /api/jobs/:id/release/confirm *)
Definition post_release_confirm (e : env) (i : string) (clientPkh opHash : jsval)
    (s : server) : server * response :=
  match jobs s !! i with
  | None => (s, Fail 404 "Job not found")
  | Some j =>
      if negb (truthy clientPkh) || negb (truthy opHash) then
        (s, Fail 400 "clientPkh and opHash are required")
      else if negb (strict_eq (clientAddress j) clientPkh) then
        (s, Fail 403 "Only client can confirm")
      else
        let j' := released j opHash (now1 e) (now2 e) in
        (saveDB e (put_job i j' s), Json (OkJobBody j'))
  end.

(** One request, routed to its handler. *)
Definition handle (c : config) (e : env) (r : request) (s : server) : server * response :=
  match r with
  | PostJob t a cl d => post_job e t a cl d s
  | GetJob i => get_job i s
  | PostAccept i f => post_accept e i f s
  | PostSubmit i f w => post_submit e i f w s
  | PostDispute i p rs => post_dispute e i p rs s
  | PostDepositPrepare i f a => post_deposit_prepare c i f a s
  | PostDepositConfirm i f h => post_deposit_confirm e i f h s
  | PostReleasePrepare i cl => post_release_prepare i cl s
  | PostReleaseConfirm i cl h => post_release_confirm e i cl h s
  end.

(** A run of the server: the requests handled one after the other. *)
Fixpoint run (c : config) (evs : list (env * request)) (s : server) : server :=
  match evs with
  | [] => s
  | (e, r) :: rest => run c rest (fst (handle c e r s))
  end.

Fixpoint responses (c : config) (evs : list (env * request)) (s : server) : list response :=
  match evs with
  | [] => []
  | (e, r) :: rest => snd (handle c e r s) :: responses c rest (fst (handle c e r s))
  end.

Definition succeeded (r : response) : bool :=
  match r with
  | Json _ => true
  | Fail _ _ => false
  end.

(** ** The transition table of the specification *)

Inductive action := Accept | DepositConfirm | Submit | ReleaseConfirm | Dispute.

(** The table as the specification words it, not as the handlers guard it:
    accept OPEN -> ACCEPTED, deposit-confirm ACCEPTED -> FUNDED, submit
    {ACCEPTED, FUNDED} -> SUBMITTED, release-confirm {SUBMITTED, FUNDED} ->
    RELEASED, dispute any -> DISPUTED. *)
Definition table_edge (a : action) (from to : job_status) : bool :=
  match a, from, to with
  | Accept, OPEN, ACCEPTED => true
  | DepositConfirm, ACCEPTED, FUNDED => true
  | Submit, (ACCEPTED | FUNDED), SUBMITTED => true
  | ReleaseConfirm, (SUBMITTED | FUNDED), RELEASED => true
  | Dispute, _, DISPUTED => true
  | _, _, _ => false
  end.

Definition action_of (r : request) : option action :=
  match r with
  | PostAccept _ _ => Some Accept
  | PostDepositConfirm _ _ _ => Some DepositConfirm
  | PostSubmit _ _ _ => Some Submit
  | PostReleaseConfirm _ _ _ => Some ReleaseConfirm
  | PostDispute _ _ _ => Some Dispute
  | _ => None
  end.

(** The status changes the handlers perform: the guards on the status that
    the source has, and no other. *)
Definition code_edge (r : request) (from to : job_status) : bool :=
  match r, from, to with
  | PostJob _ _ _ _, _, OPEN => true
  | PostAccept _ _, OPEN, ACCEPTED => true
  | PostSubmit _ _ _, (ACCEPTED | FUNDED), SUBMITTED => true
  | PostDispute _ _ _, _, DISPUTED => true
  | PostDepositConfirm _ _ _, _, FUNDED => true
  | PostReleaseConfirm _ _ _, _, RELEASED => true
  | _, _, _ => false
  end.

(** ** What a request can write *)

(** [writes e r i old new]: the handler of request [r], its guards passed,
    replaces the record [old] stored under [i] (if any) by [new]. *)
Inductive writes (e : env) : request -> string -> option job -> job -> Prop :=
| writes_create old t a cl d :
    truthy t = true -> truthy cl = true ->
    writes e (PostJob t (VNum a) cl d) (random_id e) old (new_job e t a cl d)
| writes_accept i j f :
    truthy f = true -> status j = OPEN ->
    writes e (PostAccept i f) i (Some j) (accepted j f (now1 e))
| writes_submit i j f w :
    truthy f = true -> truthy w = true ->
    strict_eq (freelancerAddress j) f = true ->
    status j = ACCEPTED \/ status j = FUNDED ->
    writes e (PostSubmit i f w) i (Some j) (submitted j w (now1 e) (now2 e))
| writes_dispute i j p r :
    truthy p = true -> truthy r = true ->
    writes e (PostDispute i p r) i (Some j) (disputed j p r (now1 e) (now2 e))
| writes_deposit i j f h :
    truthy f = true -> truthy h = true ->
    strict_eq (clientAddress j) f = true ->
    writes e (PostDepositConfirm i f h) i (Some j) (funded j h (now1 e))
| writes_release i j cl h :
    truthy cl = true -> truthy h = true ->
    strict_eq (clientAddress j) cl = true ->
    writes e (PostReleaseConfirm i cl h) i (Some j) (released j h (now1 e) (now2 e)).

(** The requests whose handlers never write. *)
Definition read_only (r : request) : bool :=
  match r with
  | GetJob _ | PostDepositPrepare _ _ _ | PostReleasePrepare _ _ => true
  | _ => false
  end.

(** The body answered after a write. *)
Definition written_payload (r : request) (i : string) (j : job) : payload :=
  match r with
  | PostJob _ _ _ _ => CreatedBody i j
  | _ => OkJobBody j
  end.

(** The references of the deposit-confirm calls that succeeded on job [i]
    since it was created, oldest first. *)
Definition next_refs (i : string) (r : request) (resp : response)
    (acc : list jsval) : list jsval :=
  match r, resp with
  | PostJob _ _ _ _, Json (CreatedBody i' _) => if String.eqb i' i then [] else acc
  | PostDepositConfirm i' _ h, Json _ => if String.eqb i' i then acc ++ [h] else acc
  | _, _ => acc
  end.

Fixpoint deposit_refs (c : config) (evs : list (env * request)) (s : server)
    (i : string) (acc : list jsval) : list jsval :=
  match evs with
  | [] => acc
  | (e, r) :: rest =>
      deposit_refs c rest (fst (handle c e r s)) i
        (next_refs i r (snd (handle c e r s)) acc)
  end.

Definition escrow_tracks (j : job) (refs : list jsval) : Prop :=
  opHashes (escrow j) = refs /\
  deposited (escrow j) = match refs with [] => Num.of_Z 0 | _ :: _ => amountMutez j end.

(** ** Runs used below *)

(** The happy path of one job. *)
Definition happy_path (e1 e2 e3 e4 e5 e6 e7 : env)
    (title : jsval) (amount : number) (client description freelancer : jsval)
    (amountTez : number) (depositRef workUrl releaseRef : jsval) : list (env * request) :=
  let i := random_id e1 in
  [ (e1, PostJob title (VNum amount) client description);
    (e2, PostAccept i freelancer);
    (e3, PostDepositPrepare i client (VNum amountTez));
    (e4, PostDepositConfirm i client depositRef);
    (e5, PostSubmit i freelancer workUrl);
    (e6, PostReleasePrepare i client);
    (e7, PostReleaseConfirm i client releaseRef) ].

(** ** A worked scenario *)

Definition example_config : config :=
  {| ESCROW_ADDRESS := Some "tz1fakeEscrowAddr111111111111111111" |}.

Definition example_env (t : string) : env :=
  {| random_id := "9f3a1c07"; now1 := t; now2 := t; write_ok := true;
     file_after_failed_write := None |}.

Definition example_id : string := "9f3a1c07".

(** A job of ten tez, that is 10_000_000 mutez, opened by client C1. *)
Definition example_create : request :=
  PostJob (VStr "Logo design") (VNum (Num.of_Z 10000000)) (VStr "C1") VUndefined.

Definition opened_server : server :=
  fst (handle example_config (example_env "t0") example_create (boot None)).

Definition accepted_server : server :=
  fst (handle example_config (example_env "t1")
         (PostAccept example_id (VStr "F1")) opened_server).

Definition example_happy_path : list (env * request) :=
  happy_path (example_env "t0") (example_env "t1") (example_env "t2")
    (example_env "t3") (example_env "t4") (example_env "t5") (example_env "t6")
    (VStr "Logo design") (Num.of_Z 10000000) (VStr "C1") VUndefined (VStr "F1")
    (Num.of_Z 10) (VStr "0xabc") (VStr "https://work.example/logo") (VStr "0xdef").

(** A job whose amount is zero. *)
Definition example_free_job : list (env * request) :=
  [ (example_env "t0", PostJob (VStr "Favour") (VNum (Num.of_Z 0)) (VStr "C1") VUndefined) ].

(** The happy path followed by a dispute raised by the client. *)
Definition example_dispute_after_release : list (env * request) :=
  example_happy_path ++
  [ (example_env "t7", PostDispute example_id (VStr "C1") (VStr "late delivery")) ].

(** ** Vocabulary for the further properties *)

(** [req.params.id] *)
Definition job_id (r : request) : option string :=
  match r with
  | PostJob _ _ _ _ => None
  | GetJob i | PostAccept i _ | PostSubmit i _ _ | PostDispute i _ _
  | PostDepositPrepare i _ _ | PostDepositConfirm i _ _
  | PostReleasePrepare i _ | PostReleaseConfirm i _ _ => Some i
  end.

(** The one key of [jobs] a request reads or assigns. *)
Definition target (e : env) (r : request) : string :=
  match job_id r with
  | Some i => i
  | None => random_id e
  end.

(** The comparison of the caller with the party recorded on the job, for
    the routes that make one. *)
Definition identity_check (r : request) (j : job) : option bool :=
  match r with
  | PostSubmit _ f _ => Some (strict_eq (freelancerAddress j) f)
  | PostDepositPrepare _ f _ | PostDepositConfirm _ f _ =>
      Some (strict_eq (clientAddress j) f)
  | PostReleasePrepare _ cl | PostReleaseConfirm _ cl _ =>
      Some (strict_eq (clientAddress j) cl)
  | _ => None
  end.

(** A POST /api/jobs that draws the identifier [i]. *)
Definition creates_at (i : string) (ev : env * request) : bool :=
  match snd ev with
  | PostJob _ _ _ _ => String.eqb (random_id (fst ev)) i
  | _ => false
  end.

(** The fields no handler assigns after creation. *)
Definition same_creation (j j' : job) : Prop :=
  id j' = id j /\ title j' = title j /\ description j' = description j /\
  amountMutez j' = amountMutez j /\ currency j' = currency j /\
  clientAddress j' = clientAddress j /\ createdAt j' = createdAt j.

Definition set_write_ok (e : env) (b : bool) : env :=
  {| random_id := random_id e; now1 := now1 e; now2 := now2 e; write_ok := b;
     file_after_failed_write := file_after_failed_write e |}.

(** The double that the integer [p], or [- p], is. *)
Definition exact_signed (s : bool) (p : positive) : number :=
  S754_finite s (Num.shl p (53 - Z.pos (digits2_pos p))) (Z.pos (digits2_pos p) - 53).


(** [!ESCROW_ADDRESS] is false: the variable is set, and not to the empty
    string. *)
Definition configured (c : config) : bool :=
  match ESCROW_ADDRESS c with
  | Some address => negb (String.eqb address "")
  | None => false
  end.

(** A server started without [ESCROW_ADDRESS] in its environment. *)
Definition example_unconfigured : config := {| ESCROW_ADDRESS := None |}.

(** The members of [Object.prototype]. *)
Definition Object_prototype_names : list string :=
  [ "constructor"; "__defineGetter__"; "__defineSetter__"; "hasOwnProperty";
    "__lookupGetter__"; "__lookupSetter__"; "isPrototypeOf";
    "propertyIsEnumerable"; "toString"; "valueOf"; "__proto__";
    "toLocaleString" ].

(** The identifiers that [jobs[id]] can find up the prototype chain rather
    than among the jobs: the members of [Object.prototype], and the three
    properties that the dispute handler assigns, which land on
    [Object.prototype] when the identifier is [__proto__]. The handlers as
    modelled here are those of the other identifiers. *)
Definition inherited (i : string) : bool :=
  existsb (String.eqb i) (Object_prototype_names ++ [ "dispute"; "status"; "updatedAt" ]).

(** A request whose identifier, if it has one, is not an inherited one. *)
Definition plain (r : request) : bool :=
  match job_id r with
  | Some i => negb (inherited i)
  | None => true
  end.




(** ** Properties *)

(** *** Whole numbers in double precision *)

Ltac corelib_Z :=
  change IntDef.Z.max with Z.max in *;
  change IntDef.Z.sub with Z.sub in *;
  change IntDef.Z.add with Z.add in *;
  change IntDef.Z.opp with Z.opp in *;
  change IntDef.Z.leb with Z.leb in *;
  change IntDef.Z.eqb with Z.eqb in *;
  change IntDef.Z.mul with Z.mul in *;
  change PosDef.Pos.mul with Pos.mul in *;
  change @PosDef.Pos.iter with @Pos.iter in *;
  change PosDef.Pos.succ with Pos.succ in *.

Lemma digits2_pos_bounds (p : positive) :
  2 ^ (Z.pos (digits2_pos p) - 1) <= Z.pos p < 2 ^ Z.pos (digits2_pos p).
Proof.
  induction p as [p IH | p IH | ]; cbn [digits2_pos]; corelib_Z.
  - rewrite Pos2Z.inj_succ.
    replace (Z.succ (Z.pos (digits2_pos p)) - 1) with (Z.succ (Z.pos (digits2_pos p) - 1)) by lia.
    rewrite !Z.pow_succ_r by lia. lia.
  - rewrite Pos2Z.inj_succ.
    replace (Z.succ (Z.pos (digits2_pos p)) - 1) with (Z.succ (Z.pos (digits2_pos p) - 1)) by lia.
    rewrite !Z.pow_succ_r by lia. lia.
  - simpl. lia.
Qed.

Lemma digits2_pos_iter_xO (p d : positive) :
  digits2_pos (Pos.iter xO p d) = (digits2_pos p + d)%positive.
Proof.
  induction d as [|d IH] using Pos.peano_ind.
  - simpl. corelib_Z. lia.
  - rewrite Pos.iter_succ. cbn [digits2_pos]. corelib_Z. rewrite IH. lia.
Qed.

Lemma iter_xO_value (p d : positive) : Z.pos (Pos.iter xO p d) = Z.pos p * 2 ^ Z.pos d.
Proof.
  induction d as [|d IH] using Pos.peano_ind.
  - simpl. lia.
  - rewrite Pos.iter_succ, Pos2Z.inj_succ, Z.pow_succ_r by lia.
    rewrite Pos2Z.inj_xO. lia.
Qed.

Lemma shl_value p d : 0 <= d -> Z.pos (Num.shl p d) = Z.pos p * 2 ^ d.
Proof. destruct d; simpl; intros; try lia. apply iter_xO_value. Qed.

Lemma shl_digits p d :
  0 <= d -> Z.pos (digits2_pos (Num.shl p d)) = Z.pos (digits2_pos p) + d.
Proof. destruct d; simpl; intros; try lia. rewrite digits2_pos_iter_xO. lia. Qed.

Lemma fexp_normal e : -1074 <= e - 53 -> fexp Num.prec Num.emax e = e - 53.
Proof. intros H. unfold fexp, emin, Num.prec, Num.emax. corelib_Z. lia. Qed.

(** A 53-bit mantissa within the exponent range is left as it is. *)
Lemma round_canonical sx m e :
  Z.pos (digits2_pos m) = 53 -> -1074 <= e <= 971 ->
  binary_round_aux Num.prec Num.emax sx (Z.pos m) e loc_Exact = S754_finite sx m e.
Proof.
  intros Hd He. unfold binary_round_aux, shr_fexp.
  cbn [Zdigits2 shr_record_of_loc]. corelib_Z. rewrite Hd.
  rewrite fexp_normal by lia. replace (53 + e - 53 - e) with 0 by ring.
  cbn [shr shr_m loc_of_shr_record round_nearest_even Zdigits2 shr_record_of_loc].
  corelib_Z. rewrite Hd.
  rewrite fexp_normal by lia. replace (53 + e - 53 - e) with 0 by ring.
  cbn [shr shr_m]. unfold Num.emax, Num.prec.
  destruct (Z.leb_spec e (1024 - 53)); [ reflexivity | lia ].
Qed.

(** Shifting out [n] zero bits is exact. *)
Lemma shr_exact (n m : positive) :
  SpecFloat.iter_pos shr_1 n {| shr_m := Z.pos (Pos.iter xO m n); shr_r := false; shr_s := false |}
  = {| shr_m := Z.pos m; shr_r := false; shr_s := false |}.
Proof.
  revert m. induction n as [n IH | n IH | ]; intros m; simpl.
  - rewrite IH, IH. reflexivity.
  - rewrite IH, IH. reflexivity.
  - reflexivity.
Qed.

Lemma round_shifted sx m (n : positive) e :
  Z.pos (digits2_pos m) = 53 -> -1074 <= e + Z.pos n <= 971 ->
  binary_round_aux Num.prec Num.emax sx (Z.pos (Pos.iter xO m n)) e loc_Exact
  = S754_finite sx m (e + Z.pos n).
Proof.
  intros Hd He. unfold binary_round_aux, shr_fexp.
  cbn [Zdigits2 shr_record_of_loc]. corelib_Z.
  rewrite digits2_pos_iter_xO, Pos2Z.inj_add, Hd.
  rewrite fexp_normal by lia. replace (53 + Z.pos n + e - 53 - e) with (Z.pos n) by ring.
  cbn [shr]. rewrite shr_exact.
  cbn [shr_m loc_of_shr_record round_nearest_even Zdigits2 shr_record_of_loc].
  corelib_Z. rewrite Hd.
  rewrite fexp_normal by lia.
  replace (53 + (e + Z.pos n) - 53 - (e + Z.pos n)) with 0 by ring.
  cbn [shr shr_m]. unfold Num.emax, Num.prec.
  destruct (Z.leb_spec (e + Z.pos n) (1024 - 53)); [ reflexivity | lia ].
Qed.

Lemma digits_le_53 p : Z.pos p < 2 ^ 53 -> Z.pos (digits2_pos p) <= 53.
Proof.
  intros Hp. pose proof (digits2_pos_bounds p) as Hd.
  destruct (Z.le_gt_cases (Z.pos (digits2_pos p)) 53); auto.
  assert (2 ^ 53 <= 2 ^ (Z.pos (digits2_pos p) - 1)) by (apply Z.pow_le_mono_r; lia).
  lia.
Qed.

(** An integer literal below 2^53 denotes itself. *)
Lemma of_Z_exact p : Z.pos p < 2 ^ 53 -> Num.of_Z (Z.pos p) = Num.exact p.
Proof.
  intros Hp. pose proof (digits_le_53 p Hp) as Hle.
  unfold Num.of_Z, binary_normalize, binary_round, Num.exact. corelib_Z.
  rewrite Z.add_0_r. rewrite fexp_normal by lia.
  unfold shl_align. corelib_Z.
  destruct (Z.pos (digits2_pos p) - 53 - 0) as [|d|d] eqn:E; try lia.
  - replace (53 - Z.pos (digits2_pos p)) with 0 by lia. cbn [Num.shl].
    rewrite round_canonical by lia. f_equal. lia.
  - replace (53 - Z.pos (digits2_pos p)) with (Z.pos d) by lia. cbn [Num.shl].
    rewrite round_canonical; [ f_equal; lia | rewrite digits2_pos_iter_xO; lia | lia ].
Qed.

Lemma digits_mul_lower a b :
  Z.pos (digits2_pos a) + Z.pos (digits2_pos b) - 1 <= Z.pos (digits2_pos (a * b)).
Proof.
  pose proof (digits2_pos_bounds a) as [Ha _].
  pose proof (digits2_pos_bounds b) as [Hb _].
  pose proof (digits2_pos_bounds (a * b)) as [_ Hab].
  set (da := Z.pos (digits2_pos a)) in *. set (db := Z.pos (digits2_pos b)) in *.
  set (dab := Z.pos (digits2_pos (a * b))) in *.
  assert (H : 2 ^ (da - 1 + (db - 1)) < 2 ^ dab).
  { rewrite Z.pow_add_r by (unfold da, db; lia).
    eapply Z.le_lt_trans; [ | exact Hab ]. rewrite Pos2Z.inj_mul.
    apply Z.mul_le_mono_nonneg; auto; apply Z.pow_nonneg; lia. }
  apply Z.pow_lt_mono_r_iff in H; unfold da, db, dab in *; lia.
Qed.

(** The product of two integers is exact as long as it is below 2^53. *)
Lemma mul_exact a b :
  Z.pos (a * b) < 2 ^ 53 -> Num.mul (Num.exact a) (Num.exact b) = Num.exact (a * b).
Proof.
  intros Hab.
  assert (Ha : Z.pos a < 2 ^ 53) by nia.
  assert (Hb : Z.pos b < 2 ^ 53) by nia.
  pose proof (digits_le_53 _ Ha) as Hda. pose proof (digits_le_53 _ Hb) as Hdb.
  pose proof (digits_le_53 _ Hab) as Hdab. pose proof (digits_mul_lower a b) as Hlow.
  unfold Num.mul, Num.exact, SFmul. cbn [xorb]. corelib_Z.
  set (da := Z.pos (digits2_pos a)) in *. set (db := Z.pos (digits2_pos b)) in *.
  set (dab := Z.pos (digits2_pos (a * b))) in *.
  destruct (53 + dab - da - db) as [|n|n] eqn:En; try lia.
  assert (Hm : (Num.shl a (53 - da) * Num.shl b (53 - db))%positive
               = Pos.iter xO (Num.shl (a * b) (53 - dab)) n).
  { apply Pos2Z.inj. rewrite Pos2Z.inj_mul, iter_xO_value, !shl_value by lia.
    rewrite Pos2Z.inj_mul. rewrite <- En.
    replace (53 + dab - da - db) with ((53 - da) + (53 - db) - (53 - dab)) by ring.
    assert (E2 : 2 ^ (53 - da) * 2 ^ (53 - db)
                 = 2 ^ (53 - dab) * 2 ^ (53 - da + (53 - db) - (53 - dab))).
    { rewrite <- !Z.pow_add_r by lia. f_equal. ring. }
    nia. }
  rewrite Hm. rewrite round_shifted.
  - f_equal. lia.
  - rewrite shl_digits by lia. fold dab. ring.
  - lia.
Qed.

Lemma Math_round_exact p : Z.pos p < 2 ^ 53 -> Num.Math_round (Num.exact p) = Num.exact p.
Proof.
  intros Hp. pose proof (digits_le_53 p Hp) as Hle.
  unfold Num.exact, Num.Math_round.
  destruct (Z.leb_spec 0 (Z.pos (digits2_pos p) - 53)) as [H0|H0]; [ reflexivity | ].
  cbv zeta. rewrite shl_value by lia.
  replace (- (Z.pos (digits2_pos p) - 53)) with (53 - Z.pos (digits2_pos p)) by ring.
  set (den := 2 ^ (53 - Z.pos (digits2_pos p))).
  assert (Hden : 0 < den) by (apply Z.pow_pos_nonneg; lia).
  replace (2 * (Z.pos p * den) + den) with ((2 * Z.pos p + 1) * den) by ring.
  rewrite Z.div_mul_cancel_r by lia.
  replace ((2 * Z.pos p + 1) / 2) with (Z.pos p)
    by (apply Z.div_unique with (r := 1); lia).
  cbn [Z.eqb]. apply of_Z_exact, Hp.
Qed.

(** For a whole number [n] of tez, [toMutez] is [n * 1_000_000] exactly, as
    long as this is below 2^53. *)
Lemma toMutez_whole n :
  0 <= n -> n * 1000000 < 2 ^ 53 ->
  toMutez (Num.of_Z n) = Num.of_Z (n * 1000000).
Proof.
  intros Hn Hlt. destruct n as [|p|p]; [ reflexivity | | lia ].
  assert (Hp : Z.pos p < 2 ^ 53) by lia.
  unfold toMutez. rewrite (of_Z_exact p Hp). cbn [Num.exact Num.truthy].
  change (S754_finite false (Num.shl p (53 - Z.pos (digits2_pos p)))
            (Z.pos (digits2_pos p) - 53)) with (Num.exact p).
  rewrite (of_Z_exact 1000000) by reflexivity.
  change (Z.pos p * 1000000) with (Z.pos (p * 1000000)) in *.
  rewrite mul_exact by exact Hlt.
  rewrite Math_round_exact by exact Hlt.
  symmetry. apply of_Z_exact, Hlt.
Qed.

(** [toMutez] on the amounts 10, 1.5, 1.005 and 0.0000005. *)
Lemma toMutez_examples :
  Num.toString (toMutez (Num.of_Z 10)) = "10000000" /\
  Num.toString (toMutez (SFdiv Num.prec Num.emax (Num.of_Z 3) (Num.of_Z 2))) = "1500000" /\
  Num.toString (toMutez (SFdiv Num.prec Num.emax (Num.of_Z 1005) (Num.of_Z 1000))) = "1005000" /\
  Num.toString (toMutez (SFdiv Num.prec Num.emax (Num.of_Z 5) (Num.of_Z 10000000))) = "1".
Proof. repeat split; vm_compute; reflexivity. Qed.

(** [String(x)] on some numbers: whole ones, fractions, and the magnitudes
    at which the notation changes. *)
Lemma toString_examples :
  map Num.toString
    [ Num.of_Z 0; Num.of_Z (-42); Num.of_Z (2 ^ 53); Num.of_Z (2 ^ 64);
      Num.of_Z (10 ^ 21);
      SFdiv Num.prec Num.emax (Num.of_Z 1) (Num.of_Z 10);
      SFdiv Num.prec Num.emax (Num.of_Z 1) (Num.of_Z 3);
      SFdiv Num.prec Num.emax (Num.of_Z 1) (Num.of_Z 10000000);
      S754_finite false 1 (-1074); SFmax_float Num.prec Num.emax ]
  = [ "0"; "-42"; "9007199254740992"; "18446744073709552000"; "1e+21";
      "0.1"; "0.3333333333333333"; "1e-7"; "5e-324"; "1.7976931348623157e+308" ].
Proof. vm_compute. reflexivity. Qed.

(** [String(x)] where two shortest decimals are as close to [x]: the even
    one is taken, as for 2^50 + 0.75 and 2^50 + 0.25. *)
Lemma toString_tie_examples :
  map Num.toString
    [ S754_finite false 4503599627370499 (-2); S754_finite false 4503599627370497 (-2) ]
  = [ "1125899906842624.8"; "1125899906842624.2" ].
Proof. vm_compute. reflexivity. Qed.

(** *** The steps of the server *)

Lemma status_eqb_eq a b : status_eqb a b = true <-> a = b.
Proof. destruct a, b; simpl; split; intros H; congruence. Qed.

Lemma negb_orb_false a b : negb a || negb b = false -> a = true /\ b = true.
Proof. destruct a, b; simpl; intros H; split; congruence. Qed.

Ltac guards :=
  repeat match goal with
  | H : negb _ || negb _ = false |- _ => apply negb_orb_false in H; destruct H
  | H : negb _ = false |- _ => apply negb_false_iff in H
  | H : negb _ = true |- _ => apply negb_true_iff in H
  | H : _ || _ = true |- _ => apply orb_true_iff in H
  | H : _ && _ = false |- _ => apply andb_false_iff in H
  | H : status_eqb _ _ = true |- _ => apply status_eqb_eq in H
  end.

(** A request either leaves the server as it is, answering with an error
    unless it is a read, or writes one record and saves the store. *)
Lemma handle_cases c e r s :
  (fst (handle c e r s) = s /\
   (succeeded (snd (handle c e r s)) = true -> read_only r = true)) \/
  (exists i j', writes e r i (jobs s !! i) j' /\
                fst (handle c e r s) = saveDB e (put_job i j' s) /\
                snd (handle c e r s) = Json (written_payload r i j')).
Proof.
  destruct r; simpl;
    unfold post_job, get_job, post_accept, post_submit, post_dispute,
      post_deposit_prepare, post_deposit_confirm, post_release_prepare,
      post_release_confirm;
    repeat case_match; simpl; auto; right; guards;
    (eexists _, _; split; [ | split; reflexivity ]);
    match goal with
    | H : jobs s !! _ = Some _ |- _ => rewrite H
    | _ => idtac
    end.
  - apply writes_create; auto.
  - apply writes_accept; auto.
  - apply writes_submit; auto. destruct H2; guards; auto.
  - apply writes_dispute; auto.
  - apply writes_deposit; auto.
  - apply writes_release; auto.
Qed.

(** Whatever holds of every stored record, and of every record a handler
    writes over such a one, holds along every run. *)
Lemma run_invariant (P : job -> Prop) c evs s :
  (forall e r i old new,
      writes e r i old new -> (forall j, old = Some j -> P j) -> P new) ->
  map_Forall (fun _ j => P j) (jobs s) ->
  map_Forall (fun _ j => P j) (jobs (run c evs s)).
Proof.
  intros Hw. revert s. induction evs as [|[e r] rest IH]; intros s Hs; simpl; auto.
  apply IH.
  destruct (handle_cases c e r s) as [[-> _] | (i & j' & Hwr & -> & _)]; auto.
  simpl. apply map_Forall_insert_2; auto.
  apply (Hw _ _ _ _ _ Hwr). intros j Hj. apply (Hs i j Hj).
Qed.

Lemma lookup_saved e k j s : jobs (saveDB e (put_job k j s)) !! k = Some j.
Proof. simpl. apply lookup_insert_eq. Qed.

Lemma strict_eq_truthy a b : strict_eq a b = true -> truthy a = truthy b.
Proof.
  destruct a, b; simpl; try discriminate; auto.
  - intros H. apply Bool.eqb_prop in H. congruence.
  - destruct x, x0; simpl; auto; try discriminate;
      destruct s, s0; discriminate.
  - intros H. apply String.eqb_eq in H. congruence.
Qed.

(** *** Each handler on a request that passes its guards *)

Lemma post_job_ok e t a cl d s :
  truthy t = true -> truthy cl = true ->
  post_job e t (VNum a) cl d s =
    (saveDB e (put_job (random_id e) (new_job e t a cl d) s),
     Json (CreatedBody (random_id e) (new_job e t a cl d))).
Proof. intros Ht Hcl. unfold post_job. rewrite Ht, Hcl. reflexivity. Qed.

Lemma post_accept_ok e i f s j :
  jobs s !! i = Some j -> truthy f = true -> status j = OPEN ->
  post_accept e i f s =
    (saveDB e (put_job i (accepted j f (now1 e)) s),
     Json (OkJobBody (accepted j f (now1 e)))).
Proof. intros Hj Hf Hs. unfold post_accept. rewrite Hj, Hf, Hs. reflexivity. Qed.

Lemma post_submit_ok e i f w s j :
  jobs s !! i = Some j -> truthy f = true -> truthy w = true ->
  strict_eq (freelancerAddress j) f = true ->
  status j = ACCEPTED \/ status j = FUNDED ->
  post_submit e i f w s =
    (saveDB e (put_job i (submitted j w (now1 e) (now2 e)) s),
     Json (OkJobBody (submitted j w (now1 e) (now2 e)))).
Proof.
  intros Hj Hf Hw Heq Hs. unfold post_submit. rewrite Hj, Hf, Hw, Heq.
  destruct Hs as [-> | ->]; reflexivity.
Qed.

Lemma post_dispute_ok e i p r s j :
  jobs s !! i = Some j -> truthy p = true -> truthy r = true ->
  post_dispute e i p r s =
    (saveDB e (put_job i (disputed j p r (now1 e) (now2 e)) s),
     Json (OkJobBody (disputed j p r (now1 e) (now2 e)))).
Proof. intros Hj Hp Hr. unfold post_dispute. rewrite Hj, Hp, Hr. reflexivity. Qed.

Lemma post_deposit_prepare_ok c i f x s j address :
  jobs s !! i = Some j -> truthy f = true ->
  strict_eq (clientAddress j) f = true ->
  ESCROW_ADDRESS c = Some address -> address <> "" ->
  post_deposit_prepare c i f (VNum x) s =
    (s, Json (OperationDetailsBody
                [ {| kind := "transaction"; destination := VStr address;
                     amount := Num.toString (toMutez x) |} ])).
Proof.
  intros Hj Hf Heq Hc Hne. apply String.eqb_neq in Hne.
  unfold post_deposit_prepare. rewrite Hj, Hf, Heq, Hc, Hne. reflexivity.
Qed.

Lemma post_deposit_prepare_unconfigured c i f x s j :
  jobs s !! i = Some j -> truthy f = true ->
  strict_eq (clientAddress j) f = true ->
  ESCROW_ADDRESS c = None \/ ESCROW_ADDRESS c = Some "" ->
  post_deposit_prepare c i f (VNum x) s =
    (s, Fail 400 "ESCROW_ADDRESS not configured on server (.env)").
Proof.
  intros Hj Hf Heq Hc.
  unfold post_deposit_prepare. rewrite Hj, Hf, Heq.
  destruct Hc as [-> | ->]; reflexivity.
Qed.

(** deposit-prepare for a whole number [n] of tez asks for [n * 1_000_000]
    mutez. *)
Lemma deposit_prepare_whole_tez c i f n s j address :
  jobs s !! i = Some j -> truthy f = true ->
  strict_eq (clientAddress j) f = true ->
  ESCROW_ADDRESS c = Some address -> address <> "" ->
  0 <= n -> n * 1000000 < 2 ^ 53 ->
  post_deposit_prepare c i f (VNum (Num.of_Z n)) s =
    (s, Json (OperationDetailsBody
                [ {| kind := "transaction"; destination := VStr address;
                     amount := Num.toString (Num.of_Z (n * 1000000)) |} ])).
Proof.
  intros Hj Hf Heq Hc Hne Hn Hlt.
  rewrite (post_deposit_prepare_ok c i f _ s j address Hj Hf Heq Hc Hne).
  rewrite toMutez_whole by assumption. reflexivity.
Qed.

Lemma post_deposit_confirm_ok e i f h s j :
  jobs s !! i = Some j -> truthy f = true -> truthy h = true ->
  strict_eq (clientAddress j) f = true ->
  post_deposit_confirm e i f h s =
    (saveDB e (put_job i (funded j h (now1 e)) s),
     Json (OkJobBody (funded j h (now1 e)))).
Proof.
  intros Hj Hf Hh Heq. unfold post_deposit_confirm. rewrite Hj, Hf, Hh, Heq. reflexivity.
Qed.

Lemma post_release_prepare_ok i cl s j :
  jobs s !! i = Some j -> truthy cl = true ->
  strict_eq (clientAddress j) cl = true ->
  truthy (freelancerAddress j) = true ->
  status j = SUBMITTED \/ status j = FUNDED ->
  post_release_prepare i cl s =
    (s, Json (OperationDetailsBody
                [ {| kind := "transaction"; destination := freelancerAddress j;
                     amount := Num.toString (amountMutez j) |} ])).
Proof.
  intros Hj Hcl Heq Hf Hs. unfold post_release_prepare. rewrite Hj, Hcl, Heq, Hf.
  destruct Hs as [-> | ->]; reflexivity.
Qed.

Lemma post_release_confirm_ok e i cl h s j :
  jobs s !! i = Some j -> truthy cl = true -> truthy h = true ->
  strict_eq (clientAddress j) cl = true ->
  post_release_confirm e i cl h s =
    (saveDB e (put_job i (released j h (now1 e) (now2 e)) s),
     Json (OkJobBody (released j h (now1 e) (now2 e)))).
Proof.
  intros Hj Hcl Hh Heq. unfold post_release_confirm. rewrite Hj, Hcl, Hh, Heq. reflexivity.
Qed.

(** *** The lifecycle: status changes (C1, C2) *)

(** The status of a stored job changes only as [code_edge] says. *)
Lemma status_changes_by_code_edge c e r s i j j' :
  jobs s !! i = Some j ->
  jobs (fst (handle c e r s)) !! i = Some j' ->
  j' = j \/ code_edge r (status j) (status j') = true.
Proof.
  intros Hj.
  destruct (handle_cases c e r s) as [[-> _] | (k & new & Hwr & -> & _)].
  - rewrite Hj. intros [= ->]. auto.
  - simpl jobs. rewrite lookup_insert. case_decide as Hk.
    + subst k. intros [= <-]. right. rewrite Hj in Hwr.
      inversion Hwr; subst; simpl; auto.
      * match goal with H : status _ = OPEN |- _ => rewrite H end. reflexivity.
      * match goal with H : _ \/ _ |- _ => destruct H as [-> | ->] end; reflexivity.
    + rewrite Hj. intros [= ->]. auto.
Qed.

(** Accept, submit and dispute change the status along their rows of the
    transition table. *)
Lemma guarded_actions_follow_the_table c e r s i j j' a :
  action_of r = Some a -> a <> DepositConfirm -> a <> ReleaseConfirm ->
  jobs s !! i = Some j ->
  jobs (fst (handle c e r s)) !! i = Some j' ->
  j' = j \/ table_edge a (status j) (status j') = true.
Proof.
  intros Ha Hd Hr Hj Hj'.
  destruct (status_changes_by_code_edge c e r s i j j' Hj Hj') as [-> | He]; auto.
  right. destruct r; simpl in Ha; try discriminate; injection Ha as <-;
    try congruence; destruct (status j), (status j'); simpl in *; congruence.
Qed.

(** C1. On a job that is OPEN, a deposit-confirm by the client moves the
    status to FUNDED and a release-confirm by the client moves it to
    RELEASED; neither OPEN -> FUNDED nor OPEN -> RELEASED is an edge of the
    transition table, for any action. *)
Theorem confirm_leaves_the_transition_table :
  let deposit := PostDepositConfirm example_id (VStr "C1") (VStr "0xabc") in
  let release := PostReleaseConfirm example_id (VStr "C1") (VStr "0xdef") in
  status <$> jobs opened_server !! example_id = Some OPEN /\
  status <$> jobs (fst (handle example_config (example_env "t1") deposit opened_server))
               !! example_id = Some FUNDED /\
  status <$> jobs (fst (handle example_config (example_env "t1") release opened_server))
               !! example_id = Some RELEASED /\
  (forall a, table_edge a OPEN FUNDED = false) /\
  (forall a, table_edge a OPEN RELEASED = false).
Proof.
  cbv zeta. repeat split; try (vm_compute; reflexivity); intros []; reflexivity.
Qed.

(** C2. deposit-confirm with the client's identity on a job that is OPEN, not
    ACCEPTED, is answered with success, and the stored job becomes FUNDED
    with its amount recorded as deposited. *)
Theorem deposit_confirm_ignores_status :
  let r := PostDepositConfirm example_id (VStr "C1") (VStr "0xabc") in
  let out := handle example_config (example_env "t1") r opened_server in
  status <$> jobs opened_server !! example_id = Some OPEN /\
  exists j', snd out = Json (OkJobBody j') /\
             jobs (fst out) !! example_id = Some j' /\
             status j' = FUNDED /\
             deposited (escrow j') = Num.of_Z 10000000 /\
             opHashes (escrow j') = [VStr "0xabc"].
Proof.
  cbv zeta. split; [ vm_compute; reflexivity | ].
  eexists. split; [ vm_compute; reflexivity | ].
  repeat split; vm_compute; reflexivity.
Qed.

(** *** The release record (C3) *)

(** C3. For every job of a run started with an empty store, a job whose
    status is RELEASED has its release record set. *)
Theorem released_job_has_release c evs i j :
  jobs (run c evs (boot None)) !! i = Some j ->
  status j = RELEASED -> release j <> None.
Proof.
  intros Hj.
  refine (run_invariant (fun j => status j = RELEASED -> release j <> None)
            c evs (boot None) _ _ i j Hj).
  - intros e r k old new Hw Hold.
    inversion Hw; subst; simpl; try discriminate.
  - apply map_Forall_empty.
Qed.

Lemma released_job_has_release_witness :
  exists j, jobs (run example_config example_happy_path (boot None)) !! example_id = Some j /\
            status j = RELEASED /\ release j <> None.
Proof.
  eexists. split; [ vm_compute; reflexivity | ].
  split; [ reflexivity | ].
  apply (released_job_has_release example_config example_happy_path example_id);
    [ vm_compute; reflexivity | reflexivity ].
Defined.

(** C3, as stated, fails: after the happy path and a dispute by the client
    the job is DISPUTED and still carries its release record, so that
    "release is set if and only if the status is RELEASED" is false of it. *)
Lemma release_outlives_dispute :
  exists j,
    jobs (run example_config example_dispute_after_release (boot None)) !! example_id
      = Some j /\
    status j = DISPUTED /\
    release j = Some {| rel_opHash := VStr "0xdef"; rel_at := "t6" |} /\
    ~ (release j <> None <-> status j = RELEASED).
Proof.
  eexists. split; [ vm_compute; reflexivity | ].
  split; [ reflexivity | ]. split; [ reflexivity | ].
  cbn [release status]. intros [Hrel _].
  assert (Hs : DISPUTED = RELEASED) by (apply Hrel; discriminate).
  discriminate Hs.
Qed.

(** *** The freelancer (C4) *)

(** Along a run started with an empty store, a job that is ACCEPTED or
    SUBMITTED has a freelancer. *)
Lemma accepted_or_submitted_has_freelancer c evs i j :
  jobs (run c evs (boot None)) !! i = Some j ->
  status j = ACCEPTED \/ status j = SUBMITTED ->
  truthy (freelancerAddress j) = true.
Proof.
  intros Hj.
  refine (run_invariant
            (fun j => status j = ACCEPTED \/ status j = SUBMITTED ->
                      truthy (freelancerAddress j) = true)
            c evs (boot None) _ _ i j Hj).
  - intros e r k old new Hw Hold.
    inversion Hw; subst; simpl; intros [?|?]; try discriminate; auto.
    match goal with H : strict_eq _ _ = true |- _ =>
      apply strict_eq_truthy in H; congruence end.
  - apply map_Forall_empty.
Qed.

(** C4. A deposit-confirm, or a release-confirm, by the client on a job that
    nobody has accepted leaves a job that is FUNDED, or RELEASED, with no
    freelancer. *)
Theorem funded_or_released_without_freelancer :
  let deposit := PostDepositConfirm example_id (VStr "C1") (VStr "0xabc") in
  let release := PostReleaseConfirm example_id (VStr "C1") (VStr "0xdef") in
  (exists j, jobs (fst (handle example_config (example_env "t1") deposit opened_server))
               !! example_id = Some j /\
             status j = FUNDED /\ freelancerAddress j = VNull) /\
  (exists j, jobs (fst (handle example_config (example_env "t1") release opened_server))
               !! example_id = Some j /\
             status j = RELEASED /\ freelancerAddress j = VNull).
Proof.
  cbv zeta. split; eexists; (split; [ vm_compute; reflexivity | split; reflexivity ]).
Qed.

(** *** The instruction of deposit-prepare (C5, C9) *)

(** C5. deposit-prepare called with the client's identity and a number [x]
    does not touch the server. With an escrow address configured it answers
    with one operation, of kind "transaction", to that address, for the
    amount [String(Math.round((x || 0) * 1_000_000))]; without one it
    answers 400, "ESCROW_ADDRESS not configured". *)
Theorem deposit_prepare_instruction c e i fromPkh x s j :
  jobs s !! i = Some j ->
  truthy fromPkh = true ->
  strict_eq (clientAddress j) fromPkh = true ->
  let out := handle c e (PostDepositPrepare i fromPkh (VNum x)) s in
  fst out = s /\
  snd out =
    match ESCROW_ADDRESS c with
    | Some address =>
        if String.eqb address ""
        then Fail 400 "ESCROW_ADDRESS not configured on server (.env)"
        else Json (OperationDetailsBody
                     [ {| kind := "transaction";
                          destination := VStr address;
                          amount :=
                            Num.toString
                              (Num.Math_round
                                 (Num.mul (if Num.truthy x then x else Num.of_Z 0)
                                    (Num.of_Z 1000000))) |} ])
    | None => Fail 400 "ESCROW_ADDRESS not configured on server (.env)"
    end.
Proof.
  intros Hj Hf Heq. cbv zeta. simpl handle. unfold post_deposit_prepare.
  rewrite Hj, Hf, Heq. simpl negb. cbv iota.
  destruct (ESCROW_ADDRESS c) as [address|]; [ | split; reflexivity ].
  destruct (String.eqb address ""); split; reflexivity.
Qed.

Lemma deposit_prepare_instruction_witness :
  exists j,
    jobs accepted_server !! example_id = Some j /\
    truthy (VStr "C1") = true /\
    strict_eq (clientAddress j) (VStr "C1") = true /\
    snd (handle example_config (example_env "t2")
           (PostDepositPrepare example_id (VStr "C1") (VNum (Num.of_Z 10)))
           accepted_server)
    = Json (OperationDetailsBody
              [ {| kind := "transaction";
                   destination := VStr "tz1fakeEscrowAddr111111111111111111";
                   amount := "10000000" |} ]).
Proof.
  eexists. split; [ vm_compute; reflexivity | ].
  split; [ reflexivity | ]. split; [ reflexivity | ].
  eapply eq_trans.
  - eapply proj2.
    eapply (deposit_prepare_instruction example_config (example_env "t2") example_id
             (VStr "C1") (Num.of_Z 10) accepted_server);
      [ vm_compute; reflexivity | reflexivity | reflexivity ].
  - vm_compute. reflexivity.
Defined.

(** C5, as stated, fails: the operation answered for the client's deposit of
    ten tez is of kind "transaction", not "transfer", and its amount is the
    string "10000000". *)
Lemma deposit_prepare_kind_is_not_transfer :
  exists op,
    snd (handle example_config (example_env "t2")
           (PostDepositPrepare example_id (VStr "C1") (VNum (Num.of_Z 10)))
           accepted_server)
      = Json (OperationDetailsBody [op]) /\
    kind op = "transaction" /\
    amount op = "10000000" /\
    kind op <> "transfer".
Proof.
  eexists. split; [ vm_compute; reflexivity | ].
  split; [ reflexivity | ]. split; [ reflexivity | ]. discriminate.
Qed.

(** C9. deposit-prepare is idempotent and free of side effects: two calls
    with the same arguments, whatever the surroundings of each call, return
    the same response, and the server is unchanged after each of them. *)
Theorem deposit_prepare_idempotent c e1 e2 i fromPkh amountTez s :
  let first := handle c e1 (PostDepositPrepare i fromPkh amountTez) s in
  let second := handle c e2 (PostDepositPrepare i fromPkh amountTez) (fst first) in
  fst first = s /\ fst second = s /\ snd second = snd first.
Proof.
  assert (Hs : forall e, fst (handle c e (PostDepositPrepare i fromPkh amountTez) s) = s).
  { intros e. simpl. unfold post_deposit_prepare. repeat case_match; reflexivity. }
  cbv zeta. rewrite !Hs. repeat split; reflexivity.
Qed.

(** *** Who may dispute (C6) *)

(** C6. A dispute raised under an identity that is neither the client C1 nor
    the freelancer F1 of the job is answered with success and the job
    becomes DISPUTED. *)
Theorem dispute_by_a_stranger_succeeds :
  let r := PostDispute example_id (VStr "X9") (VStr "no reason") in
  let out := handle example_config (example_env "t2") r accepted_server in
  (exists j, jobs accepted_server !! example_id = Some j /\
             clientAddress j = VStr "C1" /\ freelancerAddress j = VStr "F1" /\
             status j = ACCEPTED) /\
  exists j', snd out = Json (OkJobBody j') /\
             jobs (fst out) !! example_id = Some j' /\
             status j' = DISPUTED /\
             (dis_by <$> dispute j') = Some (VStr "X9").
Proof.
  cbv zeta. split.
  - eexists. split; [ vm_compute; reflexivity | repeat split ].
  - eexists. split; [ vm_compute; reflexivity | ].
    repeat split; vm_compute; reflexivity.
Qed.

(** *** Failures (C7) *)

(** C7. Atomicity on failure: whenever a request of any kind (create, get,
    accept, submit, dispute, deposit-prepare, deposit-confirm,
    release-prepare, release-confirm) is answered with an error, the server
    (the in-memory store and the saved file) is as it was before the call. *)
Theorem failure_leaves_server_unchanged c e r s code message :
  snd (handle c e r s) = Fail code message ->
  fst (handle c e r s) = s.
Proof.
  intros Hfail.
  destruct (handle_cases c e r s) as [[H _] | (i & j' & _ & _ & Hok)]; auto.
  rewrite Hfail in Hok. discriminate.
Qed.

Lemma failure_leaves_server_unchanged_witness :
  snd (handle example_config (example_env "t1")
         (PostAccept example_id VUndefined) opened_server)
    = Fail 400 "freelancerPkh is required" /\
  fst (handle example_config (example_env "t1")
         (PostAccept example_id VUndefined) opened_server)
    = opened_server.
Proof.
  split; [ reflexivity | ].
  apply (failure_leaves_server_unchanged _ _ _ _ 400 "freelancerPkh is required").
  reflexivity.
Defined.

(** *** The happy path (C8) *)

Lemma post_deposit_prepare_guards_passed c i f x s j :
  jobs s !! i = Some j -> truthy f = true ->
  strict_eq (clientAddress j) f = true ->
  fst (post_deposit_prepare c i f (VNum x) s) = s /\
  succeeded (snd (post_deposit_prepare c i f (VNum x) s)) = configured c.
Proof.
  intros Hj Hf Heq. unfold post_deposit_prepare, configured.
  rewrite Hj, Hf, Heq. cbn [negb].
  destruct (ESCROW_ADDRESS c) as [address|]; [ | split; reflexivity ].
  destruct (String.eqb address ""); split; reflexivity.
Qed.

(** C8. The happy path: create, accept, deposit-prepare, deposit-confirm,
    submit, release-prepare, release-confirm, each request carrying its
    required fields and the identity recorded for its role. The job ends in
    status RELEASED with the release record holding the reference passed to
    release-confirm, and every step succeeds, deposit-prepare excepted when
    no escrow address is configured: it succeeds exactly when one is. *)
Theorem happy_path_releases c e1 e2 e3 e4 e5 e6 e7
    title amount client description freelancer amountTez depositRef workUrl releaseRef s :
  truthy title = true ->
  truthy client = true -> strict_eq client client = true ->
  truthy freelancer = true -> strict_eq freelancer freelancer = true ->
  truthy depositRef = true -> truthy workUrl = true -> truthy releaseRef = true ->
  let evs := happy_path e1 e2 e3 e4 e5 e6 e7 title amount client description
               freelancer amountTez depositRef workUrl releaseRef in
  map succeeded (responses c evs s)
    = [ true; true; configured c; true; true; true; true ] /\
  exists j, jobs (run c evs s) !! random_id e1 = Some j /\
            status j = RELEASED /\
            release j = Some {| rel_opHash := releaseRef; rel_at := now2 e7 |}.
Proof.
  intros Ht Hcl Hcl' Hf Hf' Hd Hw Hr evs. subst evs.
  unfold happy_path. cbn [responses run map handle].
  rewrite (post_job_ok e1 _ _ _ _ _ Ht Hcl). cbn [fst snd].
  erewrite (post_accept_ok e2); [ | apply lookup_saved | auto | reflexivity ].
  cbn [fst snd].
  match goal with
  | |- context [post_deposit_prepare c ?i ?f (VNum ?x) ?s0] =>
      destruct (post_deposit_prepare_guards_passed c i f x s0 _
                  (lookup_saved _ _ _ _) Hcl Hcl') as [Hsame Hok]
  end.
  rewrite Hsame, Hok. clear Hsame Hok.
  erewrite (post_deposit_confirm_ok e4); [ | apply lookup_saved | auto | auto | exact Hcl' ].
  cbn [fst snd].
  erewrite (post_submit_ok e5); [ | apply lookup_saved | auto | auto | exact Hf' | right; reflexivity ].
  cbn [fst snd].
  erewrite (post_release_prepare_ok);
    [ | apply lookup_saved | auto | exact Hcl' | exact Hf | left; reflexivity ].
  cbn [fst snd].
  erewrite (post_release_confirm_ok e7); [ | apply lookup_saved | auto | auto | exact Hcl' ].
  cbn [fst snd succeeded]. split; [ reflexivity | ].
  eexists. split; [ apply lookup_saved | split; reflexivity ].
Qed.

Lemma happy_path_releases_witness :
  truthy (VStr "Logo design") = true /\ truthy (VStr "C1") = true /\
  truthy (VStr "F1") = true /\
  map succeeded (responses example_config example_happy_path (boot None))
    = [ true; true; true; true; true; true; true ] /\
  exists j, jobs (run example_config example_happy_path (boot None)) !! example_id = Some j /\
            status j = RELEASED /\
            release j = Some {| rel_opHash := VStr "0xdef"; rel_at := "t6" |}.
Proof.
  split; [ reflexivity | ]. split; [ reflexivity | ]. split; [ reflexivity | ].
  apply (happy_path_releases example_config
           (example_env "t0") (example_env "t1") (example_env "t2")
           (example_env "t3") (example_env "t4") (example_env "t5") (example_env "t6")
           (VStr "Logo design") (Num.of_Z 10000000) (VStr "C1") VUndefined (VStr "F1")
           (Num.of_Z 10) (VStr "0xabc") (VStr "https://work.example/logo") (VStr "0xdef")
           (boot None));
    reflexivity.
Defined.

(** C8, as stated, fails: on a server started without [ESCROW_ADDRESS] the
    third step of the happy path, deposit-prepare, is answered 400, so that
    not every step succeeds; the job is RELEASED at the end all the same. *)
Lemma happy_path_without_escrow_address :
  nth_error (responses example_unconfigured example_happy_path (boot None)) 2
    = Some (Fail 400 "ESCROW_ADDRESS not configured on server (.env)") /\
  forallb succeeded (responses example_unconfigured example_happy_path (boot None))
    = false /\
  status <$> jobs (run example_unconfigured example_happy_path (boot None)) !! example_id
    = Some RELEASED.
Proof. repeat split; vm_compute; reflexivity. Qed.

(** *** The escrow record (C10) *)

Lemma snoc_cons_shape {A} (l : list A) (x : A) (d1 d2 : number) :
  match l ++ [x] with [] => d1 | _ :: _ => d2 end = d2.
Proof. destruct l; reflexivity. Qed.

Lemma next_refs_read i r resp acc :
  (succeeded resp = true -> read_only r = true) -> next_refs i r resp acc = acc.
Proof.
  destruct r, resp as [[]|]; simpl; auto; intros H; specialize (H eq_refl); discriminate.
Qed.

Lemma deposit_refs_step c e r s i acc :
  (forall j, jobs s !! i = Some j -> escrow_tracks j acc) ->
  forall j, jobs (fst (handle c e r s)) !! i = Some j ->
            escrow_tracks j (next_refs i r (snd (handle c e r s)) acc).
Proof.
  intros Hpre j.
  destruct (handle_cases c e r s) as [[-> Hro] | (k & j' & Hwr & -> & ->)].
  - rewrite next_refs_read by exact Hro. apply Hpre.
  - simpl jobs. rewrite lookup_insert.
    inversion Hwr; subst; simpl next_refs;
      (case_decide as Hk;
       [ subst; rewrite ?String.eqb_refl; intros [= <-]
       | apply String.eqb_neq in Hk; rewrite ?Hk; apply Hpre ]);
      try match goal with
          | H : Some ?j0 = jobs s !! _ |- _ =>
              symmetry in H; destruct (Hpre _ H) as [Ho Hd]
          end;
      unfold escrow_tracks; simpl; auto.
    rewrite Ho. split; [ reflexivity | symmetry; apply snoc_cons_shape ].
Qed.

(** C10. For every job of a run started with an empty store, the hashes of
    [escrow.opHashes] are exactly the references of the deposit-confirm
    calls that succeeded on it, one per call and in order, and
    [escrow.deposited] is 0 while there is none and the job's amount as
    soon as there is one: it is never a sum of deposits. Hence, for an
    amount other than 0, [escrow.deposited] is the amount if and only if a
    deposit-confirm has succeeded. *)
Theorem escrow_tracks_confirmed_deposits c evs i j :
  jobs (run c evs (boot None)) !! i = Some j ->
  let refs := deposit_refs c evs (boot None) i [] in
  opHashes (escrow j) = refs /\
  deposited (escrow j) = match refs with [] => Num.of_Z 0 | _ :: _ => amountMutez j end /\
  (amountMutez j <> Num.of_Z 0 ->
   (deposited (escrow j) = amountMutez j <-> refs <> [])).
Proof.
  assert (G : forall evs s acc,
             (forall j, jobs s !! i = Some j -> escrow_tracks j acc) ->
             forall j, jobs (run c evs s) !! i = Some j ->
                       escrow_tracks j (deposit_refs c evs s i acc)).
  { clear. induction evs as [|[e r] rest IH]; intros s acc Hpre j; simpl.
    - apply Hpre.
    - apply IH. apply deposit_refs_step, Hpre. }
  intros Hj refs.
  destruct (G evs (boot None) [] (fun j0 H => ltac:(simpl in H; rewrite lookup_empty in H; discriminate)) j Hj)
    as [Ho Hd].
  fold refs in Ho, Hd. repeat split; auto.
  - intros Heq ->. rewrite Hd in Heq. congruence.
  - intros Hne. rewrite Hd. destruct refs; congruence.
Qed.

Lemma escrow_tracks_confirmed_deposits_witness :
  exists j,
    jobs (run example_config example_happy_path (boot None)) !! example_id = Some j /\
    let refs := deposit_refs example_config example_happy_path (boot None) example_id [] in
    opHashes (escrow j) = refs /\
    deposited (escrow j) = match refs with [] => Num.of_Z 0 | _ :: _ => amountMutez j end /\
    (amountMutez j <> Num.of_Z 0 ->
     (deposited (escrow j) = amountMutez j <-> refs <> [])).
Proof.
  eexists. split; [ vm_compute; reflexivity | ].
  apply (escrow_tracks_confirmed_deposits example_config example_happy_path example_id).
  vm_compute; reflexivity.
Defined.

(** C10, as stated, fails: a job created with amount 0 has
    [escrow.deposited] equal to its amount although no deposit-confirm has
    succeeded on it. *)
Lemma zero_amount_is_deposited_without_confirm :
  exists j,
    jobs (run example_config example_free_job (boot None)) !! example_id = Some j /\
    deposit_refs example_config example_free_job (boot None) example_id [] = [] /\
    deposited (escrow j) = amountMutez j /\
    ~ (deposited (escrow j) = amountMutez j <->
       deposit_refs example_config example_free_job (boot None) example_id [] <> []).
Proof.
  eexists. split; [ vm_compute; reflexivity | ].
  split; [ reflexivity | ]. split; [ reflexivity | ].
  intros [Hrefs _]. apply Hrefs; reflexivity.
Qed.

(** ** Further properties of the handlers *)

(** *** One job at a time *)

Lemma writes_target e r i old new : writes e r i old new -> i = target e r.
Proof. intros H. inversion H; reflexivity. Qed.

Lemma other_jobs_untouched c e r s k :
  k <> target e r ->
  jobs (fst (handle c e r s)) !! k = jobs s !! k.
Proof.
  intros Hk.
  destruct (handle_cases c e r s) as [[-> _] | (i & j' & Hw & -> & _)]; auto.
  apply writes_target in Hw. subst i. simpl. apply lookup_insert_ne. congruence.
Qed.






(** *** What stays of a job *)

Lemma same_creation_refl j : same_creation j j.
Proof. repeat split. Qed.

Lemma same_creation_trans j1 j2 j3 :
  same_creation j1 j2 -> same_creation j2 j3 -> same_creation j1 j3.
Proof.
  unfold same_creation. intros (?&?&?&?&?&?&?) (?&?&?&?&?&?&?).
  repeat split; congruence.
Qed.

Lemma step_keeps c e r s i j :
  jobs s !! i = Some j -> creates_at i (e, r) = false ->
  exists j', jobs (fst (handle c e r s)) !! i = Some j' /\
             same_creation j j' /\
             (status j <> OPEN ->
              status j' <> OPEN /\ freelancerAddress j' = freelancerAddress j).
Proof.
  intros Hj Hc.
  destruct (handle_cases c e r s) as [[-> _] | (k & new & Hw & -> & _)].
  - exists j. split; [ exact Hj | ]. split; [ apply same_creation_refl | auto ].
  - simpl jobs. rewrite lookup_insert. case_decide as Hk.
    + subst k. rewrite Hj in Hw. exists new. split; [ reflexivity | ].
      inversion Hw; subst; unfold creates_at in Hc; simpl in Hc.
      * rewrite String.eqb_refl in Hc. discriminate.
      * split; [ repeat split | intros Hs; congruence ].
      * split; [ repeat split | intros Hs; split; [ discriminate | reflexivity ] ].
      * split; [ repeat split | intros Hs; split; [ discriminate | reflexivity ] ].
      * split; [ repeat split | intros Hs; split; [ discriminate | reflexivity ] ].
      * split; [ repeat split | intros Hs; split; [ discriminate | reflexivity ] ].
    + exists j. split; [ exact Hj | ]. split; [ apply same_creation_refl | auto ].
Qed.

Lemma run_keeps c evs s i j :
  jobs s !! i = Some j -> forallb (fun ev => negb (creates_at i ev)) evs = true ->
  exists j', jobs (run c evs s) !! i = Some j' /\
             same_creation j j' /\
             (status j <> OPEN ->
              status j' <> OPEN /\ freelancerAddress j' = freelancerAddress j).
Proof.
  revert s j. induction evs as [|[e r] rest IH]; intros s j Hj Hc.
  - exists j. split; [ exact Hj | ]. split; [ apply same_creation_refl | auto ].
  - simpl in Hc. apply andb_true_iff in Hc as [Hc Hrest].
    apply negb_true_iff in Hc.
    destruct (step_keeps c e r s i j Hj Hc) as (j1 & Hj1 & Hsame1 & Hacc1).
    destruct (IH _ _ Hj1 Hrest) as (j2 & Hj2 & Hsame2 & Hacc2).
    exists j2. split; [ exact Hj2 | ].
    split; [ eapply same_creation_trans; eauto | ].
    intros Hs. destruct (Hacc1 Hs) as [Hs1 Hf1].
    destruct (Hacc2 Hs1) as [Hs2 Hf2]. split; congruence.
Qed.

(** X3. A stored job stays stored, and its id, title, description, amount,
    currency, client and creation time are never assigned again, for as long
    as no POST /api/jobs draws its identifier anew. *)
Theorem creation_fields_are_kept c evs s i j :
  jobs s !! i = Some j ->
  forallb (fun ev => negb (creates_at i ev)) evs = true ->
  exists j', jobs (run c evs s) !! i = Some j' /\
             id j' = id j /\ title j' = title j /\ description j' = description j /\
             amountMutez j' = amountMutez j /\ currency j' = currency j /\
             clientAddress j' = clientAddress j /\ createdAt j' = createdAt j.
Proof.
  intros Hj Hc. destruct (run_keeps c evs s i j Hj Hc) as (j' & Hj' & Hsame & _).
  exists j'. split; [ exact Hj' | exact Hsame ].
Qed.

(** X4. A job is accepted once: when its status has left OPEN it never
    comes back to OPEN and its freelancer is never assigned again, for as
    long as no POST /api/jobs draws its identifier anew. *)
Theorem accepted_once c evs s i j :
  jobs s !! i = Some j -> status j <> OPEN ->
  forallb (fun ev => negb (creates_at i ev)) evs = true ->
  exists j', jobs (run c evs s) !! i = Some j' /\
             status j' <> OPEN /\ freelancerAddress j' = freelancerAddress j.
Proof.
  intros Hj Hs Hc. destruct (run_keeps c evs s i j Hj Hc) as (j' & Hj' & _ & Hacc).
  exists j'. split; [ exact Hj' | exact (Hacc Hs) ].
Qed.

(** X5. No handler deletes a job: an identifier that names a job names one
    after every run. *)
Theorem jobs_are_never_deleted c evs s i :
  is_Some (jobs s !! i) -> is_Some (jobs (run c evs s) !! i).
Proof.
  revert s. induction evs as [|[e r] rest IH]; intros s Hi; simpl; auto.
  apply IH.
  destruct (handle_cases c e r s) as [[-> _] | (k & new & _ & -> & _)]; auto.
  simpl. rewrite lookup_insert. case_decide; [ eauto | exact Hi ].
Qed.

Lemma creation_fields_are_kept_witness :
  jobs opened_server !! example_id
  = Some (new_job (example_env "t0") (VStr "Logo design") (Num.of_Z 10000000)
            (VStr "C1") VUndefined) /\
  forallb (fun ev => negb (creates_at example_id ev))
    (tl example_dispute_after_release) = true /\
  exists j', jobs (run example_config (tl example_dispute_after_release) opened_server)
               !! example_id = Some j' /\
             id j' = example_id /\ title j' = VStr "Logo design" /\
             description j' = VStr "" /\
             amountMutez j' = Num.of_Z 10000000 /\ currency j' = "XTZ" /\
             clientAddress j' = VStr "C1" /\ createdAt j' = "t0".
Proof.
  split; [ vm_compute; reflexivity | ]. split; [ reflexivity | ].
  apply (creation_fields_are_kept example_config
           (tl example_dispute_after_release) opened_server example_id
           (new_job (example_env "t0") (VStr "Logo design") (Num.of_Z 10000000)
              (VStr "C1") VUndefined));
    [ vm_compute; reflexivity | reflexivity ].
Defined.

Lemma accepted_once_witness :
  exists j', jobs (run example_config
                     [ (example_env "t2", PostAccept example_id (VStr "F2")) ]
                     accepted_server) !! example_id = Some j' /\
             status j' <> OPEN /\ freelancerAddress j' = VStr "F1".
Proof.
  apply (accepted_once example_config
           [ (example_env "t2", PostAccept example_id (VStr "F2")) ]
           accepted_server example_id
           (accepted (new_job (example_env "t0") (VStr "Logo design")
                        (Num.of_Z 10000000) (VStr "C1") VUndefined)
              (VStr "F1") "t1"));
    [ vm_compute; reflexivity | discriminate | reflexivity ].
Defined.

Lemma jobs_are_never_deleted_witness :
  is_Some (jobs opened_server !! example_id) /\
  is_Some (jobs (run example_config example_dispute_after_release opened_server)
             !! example_id).
Proof.
  assert (H : is_Some (jobs opened_server !! example_id))
    by (eexists; vm_compute; reflexivity).
  split; [ exact H | ].
  apply (jobs_are_never_deleted example_config example_dispute_after_release
           opened_server example_id H).
Defined.

(** *** What holds of every stored job *)

Lemma run_invariant_keyed (P : string -> job -> Prop) c evs s :
  (forall e r i old new,
      writes e r i old new -> (forall j, old = Some j -> P i j) -> P i new) ->
  map_Forall P (jobs s) ->
  map_Forall P (jobs (run c evs s)).
Proof.
  intros Hw. revert s. induction evs as [|[e r] rest IH]; intros s Hs; simpl; auto.
  apply IH.
  destruct (handle_cases c e r s) as [[-> _] | (i & j' & Hwr & -> & _)]; auto.
  simpl. apply map_Forall_insert_2; auto.
  apply (Hw _ _ _ _ _ Hwr). intros j Hj. apply (Hs i j Hj).
Qed.

(** X6. Along a run started with an empty store, every job is stored under
    its own id, has a title and a client that are present (truthy), the
    currency XTZ, and a description that is either present or the empty
    string. *)
Theorem stored_jobs_are_well_formed c evs i j :
  jobs (run c evs (boot None)) !! i = Some j ->
  id j = i /\ truthy (title j) = true /\ truthy (clientAddress j) = true /\
  currency j = "XTZ" /\
  (description j = VStr "" \/ truthy (description j) = true).
Proof.
  intros Hj.
  refine (run_invariant_keyed
            (fun i j => id j = i /\ truthy (title j) = true /\
                        truthy (clientAddress j) = true /\ currency j = "XTZ" /\
                        (description j = VStr "" \/ truthy (description j) = true))
            c evs (boot None) _ _ i j Hj).
  - intros e r k old new Hw Hold.
    inversion Hw; subst; simpl;
      try (destruct (Hold _ eq_refl) as (?&?&?&?&?); repeat split; assumption).
    repeat split; auto. unfold or_else.
    destruct (truthy d) eqn:Hd; auto.
  - apply map_Forall_empty.
Qed.

(** X7. Along a run started with an empty store, a job that is OPEN is as
    it was created: no freelancer, nothing deposited, no hash, and no
    submission, dispute or release record. *)
Theorem open_job_is_as_created c evs i j :
  jobs (run c evs (boot None)) !! i = Some j ->
  status j = OPEN ->
  freelancerAddress j = VNull /\
  escrow j = {| deposited := Num.of_Z 0; opHashes := [] |} /\
  submission j = None /\ dispute j = None /\ release j = None.
Proof.
  intros Hj.
  refine (run_invariant
            (fun j => status j = OPEN ->
                      freelancerAddress j = VNull /\
                      escrow j = {| deposited := Num.of_Z 0; opHashes := [] |} /\
                      submission j = None /\ dispute j = None /\ release j = None)
            c evs (boot None) _ _ i j Hj).
  - intros e r k old new Hw Hold.
    inversion Hw; subst; simpl; try discriminate. intros _. repeat split.
  - apply map_Forall_empty.
Qed.

(** X8. Along a run started with an empty store, the status of a job tells
    which of its records are set: ACCEPTED or SUBMITTED, a freelancer;
    SUBMITTED, a submission; DISPUTED, a dispute; FUNDED, at least one
    deposit hash and the whole amount as deposited. *)
Theorem status_tells_the_records c evs i j :
  jobs (run c evs (boot None)) !! i = Some j ->
  (status j = ACCEPTED \/ status j = SUBMITTED -> truthy (freelancerAddress j) = true) /\
  (status j = SUBMITTED -> submission j <> None) /\
  (status j = DISPUTED -> dispute j <> None) /\
  (status j = FUNDED ->
   opHashes (escrow j) <> [] /\ deposited (escrow j) = amountMutez j).
Proof.
  intros Hj.
  refine (run_invariant
            (fun j =>
               (status j = ACCEPTED \/ status j = SUBMITTED ->
                truthy (freelancerAddress j) = true) /\
               (status j = SUBMITTED -> submission j <> None) /\
               (status j = DISPUTED -> dispute j <> None) /\
               (status j = FUNDED ->
                opHashes (escrow j) <> [] /\ deposited (escrow j) = amountMutez j))
            c evs (boot None) _ _ i j Hj).
  - intros e r k old new Hw Hold.
    inversion Hw; subst; simpl;
      (split; [ intros [?|?]; try discriminate; auto | ]);
      repeat split; try discriminate.
    + match goal with H : strict_eq _ _ = true |- _ =>
        apply strict_eq_truthy in H; congruence end.
    + destruct (opHashes (escrow j0)); discriminate.
  - apply map_Forall_empty.
Qed.

Lemma stored_jobs_are_well_formed_witness :
  exists j, jobs (run example_config example_happy_path (boot None)) !! example_id = Some j /\
            id j = example_id /\ truthy (title j) = true /\
            truthy (clientAddress j) = true /\ currency j = "XTZ" /\
            (description j = VStr "" \/ truthy (description j) = true).
Proof.
  eexists. split; [ vm_compute; reflexivity | ].
  apply (stored_jobs_are_well_formed example_config example_happy_path example_id).
  vm_compute; reflexivity.
Defined.

Lemma open_job_is_as_created_witness :
  exists j, jobs (run example_config [ (example_env "t0", example_create) ] (boot None))
              !! example_id = Some j /\
            status j = OPEN /\
            freelancerAddress j = VNull /\
            escrow j = {| deposited := Num.of_Z 0; opHashes := [] |} /\
            submission j = None /\ dispute j = None /\ release j = None.
Proof.
  eexists. split; [ vm_compute; reflexivity | ]. split; [ reflexivity | ].
  apply (open_job_is_as_created example_config [ (example_env "t0", example_create) ]
           example_id); [ vm_compute; reflexivity | reflexivity ].
Defined.

Lemma status_tells_the_records_witness :
  exists j, jobs (run example_config (firstn 5 example_happy_path) (boot None))
              !! example_id = Some j /\
            status j = SUBMITTED /\
            (status j = ACCEPTED \/ status j = SUBMITTED ->
             truthy (freelancerAddress j) = true) /\
            (status j = SUBMITTED -> submission j <> None) /\
            (status j = DISPUTED -> dispute j <> None) /\
            (status j = FUNDED ->
             opHashes (escrow j) <> [] /\ deposited (escrow j) = amountMutez j).
Proof.
  eexists. split; [ vm_compute; reflexivity | ]. split; [ reflexivity | ].
  apply (status_tells_the_records example_config (firstn 5 example_happy_path) example_id).
  vm_compute; reflexivity.
Defined.

(** *** Answers *)

Ltac handlers :=
  unfold post_job, get_job, post_accept, post_submit, post_dispute,
    post_deposit_prepare, post_deposit_confirm, post_release_prepare,
    post_release_confirm.

(** X9. Every route that takes an identifier answers 404, "Job not found",
    for an identifier that names no job and is not an inherited one, and
    changes nothing. *)
Theorem unknown_id_is_not_found c e r s i :
  job_id r = Some i -> inherited i = false -> jobs s !! i = None ->
  handle c e r s = (s, Fail 404 "Job not found").
Proof.
  intros Hr _ Hi. destruct r; simpl in Hr; try discriminate;
    injection Hr as ->; simpl; handlers; rewrite Hi; reflexivity.
Qed.

Lemma unknown_id_is_not_found_witness :
  job_id (PostReleaseConfirm "0badc0de" (VStr "C1") (VStr "0xdef")) = Some "0badc0de" /\
  inherited "0badc0de" = false /\
  jobs opened_server !! "0badc0de" = None /\
  handle example_config (example_env "t1")
    (PostReleaseConfirm "0badc0de" (VStr "C1") (VStr "0xdef")) opened_server
  = (opened_server, Fail 404 "Job not found").
Proof.
  split; [ reflexivity | ]. split; [ reflexivity | ].
  split; [ vm_compute; reflexivity | ].
  apply (unknown_id_is_not_found example_config (example_env "t1")
           (PostReleaseConfirm "0badc0de" (VStr "C1") (VStr "0xdef"))
           opened_server "0badc0de");
    [ reflexivity | reflexivity | vm_compute; reflexivity ].
Defined.

(** X10. To a request whose identifier is not an inherited one, an error is
    answered with one of three codes: 404 exactly when the identifier names
    no job; 403 only when the job exists and the identity sent is not the
    one recorded for the route (the freelancer for submit, the client for
    deposit and release); 400 otherwise. *)
Theorem errors_are_400_403_404 c e r s code message :
  plain r = true ->
  snd (handle c e r s) = Fail code message ->
  (code = 404 /\ exists i, job_id r = Some i /\ jobs s !! i = None) \/
  (code = 403 /\ exists i j, job_id r = Some i /\ jobs s !! i = Some j /\
                             identity_check r j = Some false) \/
  (code = 400 /\ forall i, job_id r = Some i -> is_Some (jobs s !! i)).
Proof.
  intros _.
  destruct r; simpl; handlers; repeat case_match; simpl; intros [= <- <-];
    guards;
    first [ left; split; [ reflexivity | eexists; split; [ reflexivity | assumption ] ]
          | right; left; split; [ reflexivity | ];
            eexists _, _; split; [ reflexivity | ]; split; [ eassumption | ];
            simpl; f_equal; assumption
          | right; right; split; [ reflexivity | ];
            intros ? [= <-]; eauto
          | right; right; split; [ reflexivity | ]; intros ? [=] ].
Qed.

Lemma errors_are_400_403_404_witness :
  plain (PostSubmit example_id (VStr "X9") (VStr "https://work.example/logo")) = true /\
  snd (handle example_config (example_env "t2")
         (PostSubmit example_id (VStr "X9") (VStr "https://work.example/logo"))
         accepted_server)
  = Fail 403 "Only assigned freelancer can submit" /\
  exists i j, job_id (PostSubmit example_id (VStr "X9") (VStr "https://work.example/logo"))
              = Some i /\
              jobs accepted_server !! i = Some j /\
              strict_eq (freelancerAddress j) (VStr "X9") = false.
Proof.
  assert (H : snd (handle example_config (example_env "t2")
                     (PostSubmit example_id (VStr "X9") (VStr "https://work.example/logo"))
                     accepted_server)
              = Fail 403 "Only assigned freelancer can submit") by reflexivity.
  split; [ reflexivity | ]. split; [ exact H | ].
  destruct (errors_are_400_403_404 example_config (example_env "t2")
              (PostSubmit example_id (VStr "X9") (VStr "https://work.example/logo"))
              accepted_server 403 "Only assigned freelancer can submit" eq_refl H)
    as [[Hc _] | [[_ (i & j & Hi & Hj & Hid)] | [Hc _]]];
    [ discriminate Hc | | discriminate Hc ].
  exists i, j. repeat split; auto. simpl in Hid. congruence.
Defined.

(** X11. No submit, deposit or release request succeeds under an identity
    other than the one recorded on the job: the freelancer for submit, the
    client for deposit-prepare, deposit-confirm, release-prepare and
    release-confirm. *)
Theorem success_carries_the_recorded_identity c e r s i j :
  job_id r = Some i -> jobs s !! i = Some j ->
  succeeded (snd (handle c e r s)) = true ->
  identity_check r j <> Some false.
Proof.
  intros Hr Hj. destruct r; simpl in Hr; try discriminate; injection Hr as ->;
    simpl; handlers; rewrite Hj; repeat case_match; simpl;
    try discriminate; intros _; guards; congruence.
Qed.

Lemma success_carries_the_recorded_identity_witness :
  exists j,
    jobs accepted_server !! example_id = Some j /\
    succeeded (snd (handle example_config (example_env "t3")
                      (PostDepositConfirm example_id (VStr "C1") (VStr "0xabc"))
                      accepted_server)) = true /\
    strict_eq (clientAddress j) (VStr "C1") <> false.
Proof.
  eexists. split; [ vm_compute; reflexivity | ]. split; [ reflexivity | ].
  intros H.
  eapply (success_carries_the_recorded_identity example_config (example_env "t3")
            (PostDepositConfirm example_id (VStr "C1") (VStr "0xabc"))
            accepted_server example_id);
    [ reflexivity | vm_compute; reflexivity | reflexivity | ].
  simpl. f_equal. exact H.
Defined.

(** X12. Read your writes: the job answered by a successful create, accept,
    submit, dispute, deposit-confirm or release-confirm is the job that a
    GET of the same identifier answers next. *)
Theorem get_answers_the_job_just_written c e e' r s :
  succeeded (snd (handle c e r s)) = true -> read_only r = false ->
  exists j',
    snd (handle c e r s) = Json (written_payload r (target e r) j') /\
    handle c e' (GetJob (target e r)) (fst (handle c e r s))
    = (fst (handle c e r s), Json (JobBody j')).
Proof.
  intros Hok Hro.
  destruct (handle_cases c e r s) as [[_ H] | (i & j' & Hw & Hs & Hr)].
  - rewrite (H Hok) in Hro. discriminate.
  - apply writes_target in Hw. subst i. exists j'. split; [ exact Hr | ].
    rewrite Hs. simpl. unfold get_job. rewrite lookup_saved. reflexivity.
Qed.

Lemma get_answers_the_job_just_written_witness :
  succeeded (snd (handle example_config (example_env "t1")
                    (PostAccept example_id (VStr "F1")) opened_server)) = true /\
  exists j',
    status j' = ACCEPTED /\
    handle example_config (example_env "t2") (GetJob example_id) accepted_server
    = (accepted_server, Json (JobBody j')).
Proof.
  split; [ reflexivity | ].
  destruct (get_answers_the_job_just_written example_config (example_env "t1")
              (example_env "t2") (PostAccept example_id (VStr "F1")) opened_server
              eq_refl eq_refl) as (j' & Hr & Hg).
  exists j'. split; [ | exact Hg ].
  vm_compute in Hr. injection Hr as <-. reflexivity.
Defined.

(** X13. GET, deposit-prepare and release-prepare never change the server,
    neither the store nor the file, whatever they answer. *)
Theorem reads_change_nothing c e r s :
  read_only r = true -> fst (handle c e r s) = s.
Proof.
  intros Hro.
  destruct (handle_cases c e r s) as [[H _] | (i & j' & Hw & _ & _)]; auto.
  inversion Hw; subst; discriminate.
Qed.

Lemma reads_change_nothing_witness :
  read_only (PostReleasePrepare example_id (VStr "C1")) = true /\
  fst (handle example_config (example_env "t5")
         (PostReleasePrepare example_id (VStr "C1"))
         (run example_config (firstn 5 example_happy_path) (boot None)))
  = run example_config (firstn 5 example_happy_path) (boot None).
Proof.
  split; [ reflexivity | ].
  apply (reads_change_nothing example_config (example_env "t5")
           (PostReleasePrepare example_id (VStr "C1"))). reflexivity.
Defined.

(** X14. Every handler saves after its last assignment: after a successful
    create, accept, submit, dispute, deposit-confirm or release-confirm
    whose file write goes through, the text of the file is
    [JSON.stringify] of the store as it is after the request, not of an
    earlier one. *)
Theorem file_follows_the_store c e r s :
  write_ok e = true ->
  succeeded (snd (handle c e r s)) = true -> read_only r = false ->
  db_file (fst (handle c e r s)) = Some (jobs (fst (handle c e r s))).
Proof.
  intros Hwrite Hok Hro.
  destruct (handle_cases c e r s) as [[_ H] | (i & j' & _ & -> & _)].
  - rewrite (H Hok) in Hro. discriminate.
  - simpl. rewrite Hwrite. reflexivity.
Qed.

Lemma file_follows_the_store_witness :
  write_ok (example_env "t1") = true /\
  succeeded (snd (handle example_config (example_env "t1")
                    (PostAccept example_id (VStr "F1")) opened_server)) = true /\
  db_file opened_server <> db_file accepted_server /\
  db_file accepted_server = Some (jobs accepted_server).
Proof.
  split; [ reflexivity | ]. split; [ reflexivity | ].
  split; [ vm_compute; discriminate | ].
  apply (file_follows_the_store example_config (example_env "t1")
           (PostAccept example_id (VStr "F1")) opened_server); reflexivity.
Defined.

(** X15. A file write that throws is silent: the answer and the in-memory
    store are the same whether or not the write goes through. *)
Theorem write_failure_is_silent c e r s b :
  snd (handle c (set_write_ok e b) r s) = snd (handle c e r s) /\
  jobs (fst (handle c (set_write_ok e b) r s)) = jobs (fst (handle c e r s)).
Proof.
  destruct r; simpl; handlers; simpl; repeat case_match; split; reflexivity.
Qed.

(** X16. The status of a stored job changes only as the handlers' guards
    allow, and only by a request that addresses the job: to OPEN by a create
    that draws its identifier, from OPEN to ACCEPTED by accept, from
    ACCEPTED or FUNDED to SUBMITTED by submit, from any status to DISPUTED
    by dispute, to FUNDED by deposit-confirm and to RELEASED by
    release-confirm; any other request leaves the job as it is. *)
Theorem status_moves_as_the_guards_allow c e r s i j j' :
  jobs s !! i = Some j ->
  jobs (fst (handle c e r s)) !! i = Some j' ->
  j' = j \/ (target e r = i /\ code_edge r (status j) (status j') = true).
Proof.
  intros Hj Hj'.
  destruct (decide (i = target e r)) as [-> | Hne].
  - destruct (status_changes_by_code_edge c e r s _ j j' Hj Hj'); auto.
  - left. rewrite other_jobs_untouched in Hj' by exact Hne. congruence.
Qed.

Lemma status_moves_as_the_guards_allow_witness :
  exists j j',
    jobs opened_server !! example_id = Some j /\
    jobs accepted_server !! example_id = Some j' /\
    status j = OPEN /\ status j' = ACCEPTED /\
    (j' = j \/
     (target (example_env "t1") (PostAccept example_id (VStr "F1")) = example_id /\
      code_edge (PostAccept example_id (VStr "F1")) (status j) (status j') = true)).
Proof.
  eexists _, _. split; [ vm_compute; reflexivity | ].
  split; [ vm_compute; reflexivity | ].
  split; [ reflexivity | ]. split; [ reflexivity | ].
  apply (status_moves_as_the_guards_allow example_config (example_env "t1")
           (PostAccept example_id (VStr "F1")) opened_server example_id);
    vm_compute; reflexivity.
Defined.

(** *** [toMutez] on whole amounts, and on any amount *)

Lemma binary_round_exact sx p :
  Z.pos p < 2 ^ 53 -> binary_round Num.prec Num.emax sx p 0 = exact_signed sx p.
Proof.
  intros Hp. pose proof (digits_le_53 p Hp) as Hle.
  unfold binary_round, exact_signed. corelib_Z.
  rewrite Z.add_0_r. rewrite fexp_normal by lia.
  unfold shl_align. corelib_Z.
  destruct (Z.pos (digits2_pos p) - 53 - 0) as [|d|d] eqn:E; try lia.
  - replace (53 - Z.pos (digits2_pos p)) with 0 by lia. cbn [Num.shl].
    rewrite round_canonical by lia. f_equal. lia.
  - replace (53 - Z.pos (digits2_pos p)) with (Z.pos d) by lia. cbn [Num.shl].
    rewrite round_canonical; [ f_equal; lia | rewrite digits2_pos_iter_xO; lia | lia ].
Qed.

Lemma mul_exact_signed sa sb a b :
  Z.pos (a * b) < 2 ^ 53 ->
  Num.mul (exact_signed sa a) (exact_signed sb b) = exact_signed (xorb sa sb) (a * b).
Proof.
  intros Hab.
  assert (Ha : Z.pos a < 2 ^ 53) by nia.
  assert (Hb : Z.pos b < 2 ^ 53) by nia.
  pose proof (digits_le_53 _ Ha) as Hda. pose proof (digits_le_53 _ Hb) as Hdb.
  pose proof (digits_le_53 _ Hab) as Hdab. pose proof (digits_mul_lower a b) as Hlow.
  unfold Num.mul, exact_signed, SFmul. corelib_Z.
  set (da := Z.pos (digits2_pos a)) in *. set (db := Z.pos (digits2_pos b)) in *.
  set (dab := Z.pos (digits2_pos (a * b))) in *.
  destruct (53 + dab - da - db) as [|n|n] eqn:En; try lia.
  assert (Hm : (Num.shl a (53 - da) * Num.shl b (53 - db))%positive
               = Pos.iter xO (Num.shl (a * b) (53 - dab)) n).
  { apply Pos2Z.inj. rewrite Pos2Z.inj_mul, iter_xO_value, !shl_value by lia.
    rewrite Pos2Z.inj_mul. rewrite <- En.
    replace (53 + dab - da - db) with ((53 - da) + (53 - db) - (53 - dab)) by ring.
    assert (E2 : 2 ^ (53 - da) * 2 ^ (53 - db)
                 = 2 ^ (53 - dab) * 2 ^ (53 - da + (53 - db) - (53 - dab))).
    { rewrite <- !Z.pow_add_r by lia. f_equal. ring. }
    nia. }
  rewrite Hm. rewrite round_shifted.
  - f_equal. lia.
  - rewrite shl_digits by lia. fold dab. ring.
  - lia.
Qed.

Lemma Math_round_exact_signed sx p :
  Z.pos p < 2 ^ 53 -> Num.Math_round (exact_signed sx p) = exact_signed sx p.
Proof.
  intros Hp. pose proof (digits_le_53 p Hp) as Hle.
  unfold exact_signed, Num.Math_round.
  destruct (Z.leb_spec 0 (Z.pos (digits2_pos p) - 53)) as [H0|H0]; [ reflexivity | ].
  cbv zeta.
  replace (- (Z.pos (digits2_pos p) - 53)) with (53 - Z.pos (digits2_pos p)) by ring.
  set (den := 2 ^ (53 - Z.pos (digits2_pos p))).
  assert (Hden : 0 < den) by (apply Z.pow_pos_nonneg; lia).
  destruct sx.
  - change (Z.neg (Num.shl p (53 - Z.pos (digits2_pos p))))
      with (- Z.pos (Num.shl p (53 - Z.pos (digits2_pos p)))).
    rewrite shl_value by lia. fold den.
    replace (2 * - (Z.pos p * den) + den) with ((2 * Z.neg p + 1) * den) by lia.
    rewrite Z.div_mul_cancel_r by lia.
    replace ((2 * Z.neg p + 1) / 2) with (Z.neg p)
      by (apply Z.div_unique with (r := 1); lia).
    cbn [Z.eqb]. unfold Num.of_Z, binary_normalize. apply binary_round_exact, Hp.
  - rewrite shl_value by lia. fold den.
    replace (2 * (Z.pos p * den) + den) with ((2 * Z.pos p + 1) * den) by ring.
    rewrite Z.div_mul_cancel_r by lia.
    replace ((2 * Z.pos p + 1) / 2) with (Z.pos p)
      by (apply Z.div_unique with (r := 1); lia).
    cbn [Z.eqb]. unfold Num.of_Z, binary_normalize. apply binary_round_exact, Hp.
Qed.

(** X17. On a whole number [n] of tez, of either sign, [toMutez] is
    [n * 1_000_000] exactly, as long as this is within 2^53: a negative
    amount is converted like any other. *)
Theorem toMutez_of_whole_amounts n :
  Z.abs n * 1000000 < 2 ^ 53 ->
  toMutez (Num.of_Z n) = Num.of_Z (n * 1000000).
Proof.
  intros Hlt. destruct n as [|p|p]; [ reflexivity | | ].
  - assert (Hp : Z.pos p < 2 ^ 53) by lia.
    unfold toMutez, Num.of_Z, binary_normalize.
    rewrite (binary_round_exact false p Hp). cbn [exact_signed Num.truthy].
    fold (exact_signed false p).
    rewrite (binary_round_exact false 1000000) by reflexivity.
    rewrite mul_exact_signed by exact Hlt. cbn [xorb].
    rewrite Math_round_exact_signed by exact Hlt.
    change (Z.pos p * 1000000) with (Z.pos (p * 1000000)).
    symmetry. apply binary_round_exact, Hlt.
  - assert (Hp : Z.pos p < 2 ^ 53) by lia.
    unfold toMutez, Num.of_Z, binary_normalize.
    rewrite (binary_round_exact true p Hp). cbn [exact_signed Num.truthy].
    fold (exact_signed true p).
    rewrite (binary_round_exact false 1000000) by reflexivity.
    rewrite mul_exact_signed by exact Hlt. cbn [xorb].
    rewrite Math_round_exact_signed by exact Hlt.
    change (Z.neg p * 1000000) with (Z.neg (p * 1000000)).
    symmetry. apply binary_round_exact, Hlt.
Qed.

Lemma toMutez_of_whole_amounts_witness :
  Z.abs (-3) * 1000000 < 2 ^ 53 /\
  toMutez (Num.of_Z (-3)) = Num.of_Z (-3000000).
Proof.
  split; [ reflexivity | ].
  apply (toMutez_of_whole_amounts (-3)). reflexivity.
Defined.

Lemma shr_1_nonneg r : 0 <= shr_m r -> 0 <= shr_m (shr_1 r).
Proof.
  destruct r as [m rr ss]. destruct m as [|[p|p|]|[p|p|]]; simpl; lia.
Qed.

Lemma iter_shr_1_nonneg n r :
  0 <= shr_m r -> 0 <= shr_m (SpecFloat.iter_pos shr_1 n r).
Proof.
  revert r. induction n as [n IH | n IH | ]; intros r Hr; simpl.
  - apply IH, IH, shr_1_nonneg, Hr.
  - apply IH, IH, Hr.
  - apply shr_1_nonneg, Hr.
Qed.

Lemma shr_nonneg r e n : 0 <= shr_m r -> 0 <= shr_m (fst (shr r e n)).
Proof.
  intros Hr. destruct n; simpl; auto. apply iter_shr_1_nonneg, Hr.
Qed.

Lemma shr_record_of_loc_m m l : shr_m (shr_record_of_loc m l) = m.
Proof. destruct l as [|[]]; reflexivity. Qed.

Lemma round_nearest_even_nonneg m l : 0 <= m -> 0 <= round_nearest_even m l.
Proof.
  intros Hm. destruct l as [|[]]; simpl; corelib_Z; auto; try lia.
  destruct (Z.even m); lia.
Qed.

Lemma binary_round_aux_not_nan sx m e l :
  binary_round_aux Num.prec Num.emax sx (Z.pos m) e l <> S754_nan.
Proof.
  unfold binary_round_aux, shr_fexp.
  set (first := shr (shr_record_of_loc (Z.pos m) l) e
                  (fexp Num.prec Num.emax (Zdigits2 (Z.pos m) + e) - e)).
  assert (H1 : 0 <= shr_m (fst first)).
  { apply shr_nonneg. rewrite shr_record_of_loc_m. lia. }
  destruct first as [mrs' e']. cbn [fst] in H1.
  set (rounded := round_nearest_even (shr_m mrs') (loc_of_shr_record mrs')).
  assert (H2 : 0 <= rounded) by (apply round_nearest_even_nonneg, H1).
  set (second := shr (shr_record_of_loc rounded loc_Exact) e'
                   (fexp Num.prec Num.emax (Zdigits2 rounded + e') - e')).
  assert (H3 : 0 <= shr_m (fst second)).
  { apply shr_nonneg. rewrite shr_record_of_loc_m. exact H2. }
  destruct second as [mrs'' e'']. cbn [fst] in H3.
  destruct (shr_m mrs'') as [|p|p]; try discriminate; [ | lia ].
  destruct (e'' <=? Num.emax - Num.prec); discriminate.
Qed.

Lemma of_Z_not_nan z : Num.of_Z z <> S754_nan.
Proof.
  unfold Num.of_Z, binary_normalize. destruct z as [|p|p]; [ discriminate | | ];
    unfold binary_round; destruct (shl_align _ _ _); apply binary_round_aux_not_nan.
Qed.

Lemma Math_round_not_nan x : x <> S754_nan -> Num.Math_round x <> S754_nan.
Proof.
  intros Hx. destruct x as [s|s| |s m e]; simpl; auto.
  destruct (0 <=? e); [ discriminate | ]. cbv zeta.
  match goal with |- context [if ?b then _ else _] => destruct b end;
    [ discriminate | apply of_Z_not_nan ].
Qed.

(** X18. [toMutez] never yields NaN, not even for the amount NaN, which it
    takes for 0. *)
Theorem toMutez_is_never_NaN x : toMutez x <> S754_nan.
Proof.
  unfold toMutez. apply Math_round_not_nan.
  assert (E : exists m e, Num.of_Z 1000000 = S754_finite false m e)
    by (eexists _, _; vm_compute; reflexivity).
  destruct E as (m' & e' & ->).
  destruct x as [s|s| |s m e]; simpl; try discriminate.
  apply binary_round_aux_not_nan.
Qed.

(** *** Actions that cannot be repeated *)




